(** * Cable design validator: the front end and the orchestration core

    A shallow embedding of the TypeScript front end
    (types/validation.ts, services/api.ts, components/StatusChip.tsx,
    components/InputPanel.tsx, components/ResultsTable.tsx,
    components/ReasoningDrawer.tsx, app/design-validator/page.tsx) and, for
    the back-end stages whose code is not part of the front end, of the
    orchestration core as the specification words it.

    Conventions.
    - A JS [number] is a rational ([Q]); a decimal literal is the double
      nearest to what it writes (0.85 and 0.65 are not doubles; 100 is).
      The one arithmetic operation of the code,
      [confidence * 100], is the correctly rounded product: [fl] applied to
      the exact product, where [fl] is any monotone rounding that leaves the
      doubles 0 and 100 alone.
    - A JS string typed by the user is a sequence of UTF-16 code units
      ([ustring]); the ASCII literals of the code are [string]s.
    - [undefined] and [null] are [None].
    - A component or handler that can throw returns a [Completion]. *)

From Stdlib Require Import ZArith QArith Qround List String Ascii Bool Lia Lqa.
From Stdlib Require Import DecimalString.
Import ListNotations.

Local Open Scope string_scope.
Local Open Scope Z_scope.

(** ** JavaScript values *)

Module Js.

Inductive Exception := TypeError.

Inductive Completion (A : Type) : Type :=
| Normal (value : A)
| Throw (e : Exception).

Arguments Normal {A} value.
Arguments Throw {A} e.

Definition bind {A B} (c : Completion A) (k : A -> Completion B) : Completion B :=
  match c with
  | Normal a => k a
  | Throw e => Throw e
  end.

(** Reading a property of [null] or [undefined] throws. *)
Definition deref {A} (v : option A) : Completion A :=
  match v with
  | Some a => Normal a
  | None => Throw TypeError
  end.

(** A string typed into a form field: UTF-16 code units. *)
Definition ustring := list N.

(** ECMAScript WhiteSpace and LineTerminator code points (all of them lie in
    the basic plane, so one code unit each). *)
Definition is_whitespace (c : N) : bool :=
  match c with
  | 9 | 10 | 11 | 12 | 13 | 32 | 160 | 5760
  | 8232 | 8233 | 8239 | 8287 | 12288 | 65279 => true
  | _ => (8192 <=? c) && (c <=? 8202)
  end%N.

Fixpoint trimStart (s : ustring) : ustring :=
  match s with
  | [] => []
  | c :: rest => if is_whitespace c then trimStart rest else s
  end.

Definition trimEnd (s : ustring) : ustring := rev (trimStart (rev s)).

(** [String.prototype.trim] *)
Definition trim (s : ustring) : ustring := trimEnd (trimStart s).

(** Truthiness of a value of type [string | undefined]. *)
Definition truthy (v : option string) : bool :=
  match v with
  | Some s => negb (String.eqb s EmptyString)
  | None => false
  end.

(** [a || b] where [b] is a string. *)
Definition or_else (a : option string) (b : string) : string :=
  match a with
  | Some s => if truthy a then s else b
  | None => b
  end.

(** [Math.round]: the nearest integer, a tie going up. *)
Definition Math_round (x : Q) : Z := Qfloor (x + (1 # 2))%Q.

(** A number placed in JSX text is printed in decimal. *)
Definition render_number (n : Z) : string := NilZero.string_of_int (Z.to_int n).

End Js.

Notation "x <- c ;; k" := (Js.bind c (fun x => k))
  (at level 61, c at next level, right associativity).

(** ** types/validation.ts *)

Inductive ValidationStatus := PASS | WARN | FAIL.

(** The string each member of the union type is. *)
Definition status_value (s : ValidationStatus) : string :=
  match s with
  | PASS => "PASS"
  | WARN => "WARN"
  | FAIL => "FAIL"
  end.

Record CableDesignInput := {
  standard : option string;
  voltage : option string;
  conductor_material : option string;
  conductor_class : option string;
  csa : option Q;
  insulation_material : option string;
  insulation_thickness : option Q
}.

Module ValidationRequest.
Record t := {
  design : option CableDesignInput;
  free_text : option Js.ustring;
  design_id : option Z
}.
End ValidationRequest.

(** The number of alternatives a request defines (a key whose value is
    [undefined] is dropped when the request is serialized). *)
Definition defined_count (request : ValidationRequest.t) : nat :=
  (match ValidationRequest.design request with Some _ => 1 | None => 0 end +
   match ValidationRequest.free_text request with Some _ => 1 | None => 0 end +
   match ValidationRequest.design_id request with Some _ => 1 | None => 0 end)%nat.

Record FieldValidation := {
  field : string;
  provided : option string;
  expected : option string;
  status : ValidationStatus;
  comment : string
}.

Module ConfidenceScore.
Record t := { overall : Q; reasoning : option string }.
End ConfidenceScore.

(** [ExtractedFields] has the fields of [CableDesignInput]. *)
Definition ExtractedFields := CableDesignInput.

(** [fields] is declared required; the drawer still tests it before use, so
    it is modelled as possibly missing. *)
Module ValidationResult.
Record t := {
  fields : option ExtractedFields;
  validation : list FieldValidation;
  confidence : ConfidenceScore.t;
  reasoning : string
}.
End ValidationResult.

Module ValidationResponse.
Record t := {
  success : bool;
  message : string;
  data : option ValidationResult.t;
  input_type : string
}.
End ValidationResponse.

(** ** components/StatusChip.tsx *)

Module StatusChip.

Inductive Color := success | warning | error.
Inductive Icon := CheckCircleIcon | WarningIcon | ErrorIcon.
Inductive Size := small | medium.

Record Config := { color : Color; icon : Icon; label : string }.

(** The object literal [statusConfig]: three own keys. *)
Definition statusConfig : list (string * Config) :=
  [ ("PASS", {| color := success; icon := CheckCircleIcon; label := "PASS" |});
    ("WARN", {| color := warning; icon := WarningIcon; label := "WARN" |});
    ("FAIL", {| color := error; icon := ErrorIcon; label := "FAIL" |}) ].

(** [obj[key]]: the value of an own key, [undefined] when there is none
    (the members inherited from [Object.prototype] are left out). *)
Fixpoint get {A} (obj : list (string * A)) (key : string) : option A :=
  match obj with
  | [] => None
  | (k, v) :: rest => if String.eqb k key then Some v else get rest key
  end.

Record Chip := {
  chip_icon : Icon;
  chip_label : string;
  chip_color : Color;
  chip_size : Size;
  chip_iconFontSize : Z
}.

(** The component, on the string it receives as [status] at run time;
    [size] defaults to [medium] at the call site. *)
Definition StatusChip (status : string) (size : Size) : Js.Completion Chip :=
  config <- Js.deref (get statusConfig status) ;;
  Js.Normal {| chip_icon := icon config;
               chip_label := label config;
               chip_color := color config;
               chip_size := size;
               chip_iconFontSize := match size with small => 16 | medium => 20 end |}.

End StatusChip.

(** ** components/InputPanel.tsx *)

Module InputPanel.

Definition defaultDesign : CableDesignInput :=
  {| standard := Some "IEC 60502-1";
     voltage := Some "0.6/1 kV";
     conductor_material := Some "Cu";
     conductor_class := Some "Class 2";
     csa := Some (10 # 1);
     insulation_material := Some "PVC";
     insulation_thickness := Some (1 # 1) |}.

(** The four [useState] cells.  [selectedDesignId] is [number | ''], the
    empty string being [None]. *)
Record State := {
  tabValue : Z;
  design : CableDesignInput;
  freeText : Js.ustring;
  selectedDesignId : option Z
}.

Definition initial : State :=
  {| tabValue := 0; design := defaultDesign; freeText := []; selectedDesignId := None |}.

Definition handleTabChange (newValue : Z) (st : State) : State :=
  {| tabValue := newValue; design := design st;
     freeText := freeText st; selectedDesignId := selectedDesignId st |}.

Definition setFreeText (value : Js.ustring) (st : State) : State :=
  {| tabValue := tabValue st; design := design st;
     freeText := value; selectedDesignId := selectedDesignId st |}.

Definition setSelectedDesignId (value : option Z) (st : State) : State :=
  {| tabValue := tabValue st; design := design st;
     freeText := freeText st; selectedDesignId := value |}.

(** The arguments of one call of the [onValidate] prop. *)
Record OnValidate := {
  arg_design : option CableDesignInput;
  arg_freeText : option Js.ustring;
  arg_designId : option Z
}.

(** [handleSubmit]: the call of [onValidate] it makes, if it makes one. *)
Definition handleSubmit (st : State) : option OnValidate :=
  if tabValue st =? 0 then
    Some {| arg_design := Some (design st); arg_freeText := None; arg_designId := None |}
  else if tabValue st =? 1 then
    Some {| arg_design := None; arg_freeText := Some (freeText st); arg_designId := None |}
  else
    match tabValue st =? 2, selectedDesignId st with
    | true, Some id =>
        Some {| arg_design := None; arg_freeText := None; arg_designId := Some id |}
    | _, _ => None
    end.

Definition isValid (st : State) : bool :=
  if tabValue st =? 0 then true
  else if tabValue st =? 1 then (0 <? List.length (Js.trim (freeText st)))%nat
  else if tabValue st =? 2 then
    match selectedDesignId st with Some _ => true | None => false end
  else false.

(** The submit button: [disabled={isLoading || !isValid()}]. *)
Definition submitDisabled (isLoading : bool) (st : State) : bool :=
  isLoading || negb (isValid st).

(** A click on the submit button: a disabled button runs no handler. *)
Definition clickSubmit (isLoading : bool) (st : State) : option OnValidate :=
  if submitDisabled isLoading st then None else handleSubmit st.

End InputPanel.

(** ** services/api.ts

    The code calls [axios.create] and [post]; the library is modelled by what
    its documentation says of the options the code sets or leaves:
    [timeout] is the number of milliseconds after which a request is
    aborted, and its default, 0, means no timeout. *)

Module Api.

Module ErrorResponse.
Record data_t := { detail : option string }.
Record t := { data : option data_t }.
End ErrorResponse.

(** What a [catch] clause reads of the value it caught. *)
Module CaughtError.
Record t := {
  response : option ErrorResponse.t;
  message : option string
}.
End CaughtError.

Record AxiosRequestConfig := {
  baseURL : option string;
  headers : list (string * string);
  timeout : option N
}.

Definition axios_default_timeout : N := 0.

(** [axios.create(config)]: an instance whose requests use [config]. *)
Definition axios_create (config : AxiosRequestConfig) : AxiosRequestConfig := config.

(** [process.env.NEXT_PUBLIC_API_URL || 'http://localhost:8000'] *)
Definition API_URL (env : option string) : string :=
  Js.or_else env "http://localhost:8000".

Definition apiClient (env : option string) : AxiosRequestConfig :=
  axios_create
    {| baseURL := Some (API_URL env);
       headers := [("Content-Type", "application/json")];
       timeout := None |}.

(** What comes of one request: after some milliseconds an answer with a
    status in the 2xx range and a body; after some milliseconds a failure
    (no connection, or an answer with any other status, which axios turns
    into a rejection whose error carries the response); or nothing, ever. *)
Inductive Backend (A : Type) :=
| Answers (latency : N) (body : A)
| Fails (latency : N) (err : CaughtError.t)
| Silent.

Arguments Answers {A} latency body.
Arguments Fails {A} latency err.
Arguments Silent {A}.

(** A promise observed at some time. *)
Inductive Promise (A : Type) :=
| Pending
| Fulfilled (value : A)
| Rejected (reason : CaughtError.t).

Arguments Pending {A}.
Arguments Fulfilled {A} value.
Arguments Rejected {A} reason.

(** The error axios rejects with when its timeout fires: no response. *)
Definition timeoutError : CaughtError.t :=
  {| CaughtError.response := None; CaughtError.message := Some "timeout exceeded" |}.

Definition effective_timeout (config : AxiosRequestConfig) : N :=
  match timeout config with
  | Some t => t
  | None => axios_default_timeout
  end.

(** The promise of a request made through an instance, [elapsed]
    milliseconds after it was made, against a back end that behaves as
    [backend]. *)
Definition axios_request {A} (config : AxiosRequestConfig) (backend : Backend A)
    (elapsed : N) : Promise A :=
  let t := effective_timeout config in
  let in_time (latency : N) := ((t =? 0) || (latency <? t))%N in
  let timed_out := if (t <=? elapsed)%N then Rejected timeoutError else Pending in
  match backend with
  | Answers latency body =>
      if in_time latency
      then if (latency <=? elapsed)%N then Fulfilled body else Pending
      else timed_out
  | Fails latency err =>
      if in_time latency
      then if (latency <=? elapsed)%N then Rejected err else Pending
      else timed_out
  | Silent => if (t =? 0)%N then Pending else timed_out
  end.

(** [validateDesign(request)]: [apiClient.post('/design/validate', request)],
    then [response.data]. *)
Definition validateDesign (env : option string)
    (backend : ValidationRequest.t -> Backend ValidationResponse.t)
    (request : ValidationRequest.t) (elapsed : N) : Promise ValidationResponse.t :=
  axios_request (apiClient env) (backend request) elapsed.

End Api.

(** ** components/ResultsTable.tsx *)

Module ResultsTable.

Record Row := { id : Z; row : FieldValidation }.

(** [validations.map((v, index) => ({ id: index, ...v }))], a verdict
    taken with the keys its type declares (it has no [id] of its own to
    replace the index). *)
Fixpoint rows_from (index : Z) (validations : list FieldValidation) : list Row :=
  match validations with
  | [] => []
  | v :: rest => {| id := index; row := v |} :: rows_from (index + 1) rest
  end.

Definition rows (validations : list FieldValidation) : list Row :=
  rows_from 0 validations.

(** The dash shown for a missing value (U+2014, in UTF-8). *)
Definition em_dash : string :=
  String "226"%char (String "128"%char (String "148"%char EmptyString)).

(** [params.value?.replace(/_/g, ' ')] on a string. *)
Fixpoint replace_underscores (s : string) : string :=
  match s with
  | EmptyString => EmptyString
  | String c rest =>
      String (if Ascii.eqb c "_"%char then " "%char else c) (replace_underscores rest)
  end.

(** The [renderCell] of each column. *)
Definition renderField (r : Row) : string := replace_underscores (field (row r)).
Definition renderProvided (r : Row) : string := Js.or_else (provided (row r)) em_dash.
Definition renderExpected (r : Row) : string := Js.or_else (expected (row r)) em_dash.
Definition renderStatus (r : Row) : Js.Completion StatusChip.Chip :=
  StatusChip.StatusChip (status_value (status (row r))) StatusChip.small.
Definition renderComment (r : Row) : string := comment (row r).

Inductive View :=
| Placeholder (text : string)
| DataGrid (rows : list Row) (pageSize : Z).

Definition ResultsTable (validations : list FieldValidation) : View :=
  if (List.length validations =? 0)%nat
  then Placeholder "Submit a design to see validation results"
  else DataGrid (rows validations) 10.

(** The status chips a view holds. *)
Definition chips (v : View) : list (Js.Completion StatusChip.Chip) :=
  match v with
  | Placeholder _ => []
  | DataGrid rs _ => map renderStatus rs
  end.

End ResultsTable.

(** ** components/ReasoningDrawer.tsx *)

Module ReasoningDrawer.

Inductive Color := success | warning | error.

(** The literal [0.85]: the double nearest to 0.85, which lies just below
    it (7656119366529843 / 2^53). *)
Definition double_0_85 : Q := 7656119366529843 # 9007199254740992.

(** The literal [0.65]: the double nearest to 0.65, which lies just above
    it (5854679515581645 / 2^53). *)
Definition double_0_65 : Q := 5854679515581645 # 9007199254740992.

(** The grid every double lies on: a double of at least 1/2 is a whole
    multiple of 2^-53. *)
Definition on_double_grid (c : Q) : Prop :=
  (c < 1 # 2)%Q \/ exists m : Z, (c == m # 9007199254740992)%Q.

Definition getConfidenceColor (score : Q) : Color :=
  if Qle_bool double_0_85 score then success
  else if Qle_bool double_0_65 score then warning
  else error.

Definition getConfidenceLabel (score : Q) : string :=
  if Qle_bool double_0_85 score then "High Confidence"
  else if Qle_bool double_0_65 score then "Medium Confidence"
  else "Low Confidence".

(** What the drawer shows. *)
Record Drawer := {
  drawer_open : bool;
  percentText : string;
  chipLabel : string;
  chipColor : Color;
  progressValue : Z;
  progressColor : Color;
  confidenceReasoning : option string;
  reasoningText : string;
  extractedFields : option ExtractedFields
}.

Section Rounding.

(** Rounding of an exact product to a double. *)
Variable fl : Q -> Q.

(** The component: [null] ([None]) or a drawer. *)
Definition ReasoningDrawer (open : bool) (result : option ValidationResult.t)
  : Js.Completion (option Drawer) :=
  if match result with None => true | Some _ => false end
  then Js.Normal None
  else
    r <- Js.deref result ;;
    let confidence := ConfidenceScore.overall (ValidationResult.confidence r) in
    let confidencePercent := Js.Math_round (fl (confidence * (100 # 1))) in
    let confidenceColor := getConfidenceColor confidence in
    Js.Normal (Some
      {| drawer_open := open;
         percentText := Js.render_number confidencePercent ++ "%";
         chipLabel := getConfidenceLabel confidence;
         chipColor := confidenceColor;
         progressValue := confidencePercent;
         progressColor := confidenceColor;
         confidenceReasoning :=
           (let note := ConfidenceScore.reasoning (ValidationResult.confidence r) in
            if Js.truthy note then note else None);
         reasoningText := ValidationResult.reasoning r;
         extractedFields := ValidationResult.fields r |}).

End Rounding.

End ReasoningDrawer.

(** ** app/design-validator/page.tsx *)

Module Page.

Module CableDesign.
Record t := {
  id : Z;
  name : string;
  standard : option string;
  voltage : option string;
  conductor_material : option string;
  conductor_class : option string;
  csa : option Q;
  insulation_material : option string;
  insulation_thickness : option Q;
  created_at : option string
}.
End CableDesign.

(** The six [useState] cells of [DesignValidatorPage]. *)
Record State := {
  isLoading : bool;
  savedDesigns : list CableDesign.t;
  validationResult : option ValidationResult.t;
  error : option string;
  drawerOpen : bool;
  snackbarOpen : bool
}.

Definition initial : State :=
  {| isLoading := false; savedDesigns := []; validationResult := None;
     error := None; drawerOpen := false; snackbarOpen := false |}.

Definition setIsLoading (v : bool) (s : State) : State :=
  {| isLoading := v; savedDesigns := savedDesigns s;
     validationResult := validationResult s; error := error s;
     drawerOpen := drawerOpen s; snackbarOpen := snackbarOpen s |}.

Definition setValidationResult (v : option ValidationResult.t) (s : State) : State :=
  {| isLoading := isLoading s; savedDesigns := savedDesigns s;
     validationResult := v; error := error s;
     drawerOpen := drawerOpen s; snackbarOpen := snackbarOpen s |}.

Definition setError (v : option string) (s : State) : State :=
  {| isLoading := isLoading s; savedDesigns := savedDesigns s;
     validationResult := validationResult s; error := v;
     drawerOpen := drawerOpen s; snackbarOpen := snackbarOpen s |}.

Definition setDrawerOpen (v : bool) (s : State) : State :=
  {| isLoading := isLoading s; savedDesigns := savedDesigns s;
     validationResult := validationResult s; error := error s;
     drawerOpen := v; snackbarOpen := snackbarOpen s |}.

Definition setSnackbarOpen (v : bool) (s : State) : State :=
  {| isLoading := isLoading s; savedDesigns := savedDesigns s;
     validationResult := validationResult s; error := error s;
     drawerOpen := drawerOpen s; snackbarOpen := v |}.

(** The request [handleValidate] builds from its arguments:
    [{ design, free_text: freeText, design_id: designId }]. *)
Definition request_of (args : InputPanel.OnValidate) : ValidationRequest.t :=
  {| ValidationRequest.design := InputPanel.arg_design args;
     ValidationRequest.free_text := InputPanel.arg_freeText args;
     ValidationRequest.design_id := InputPanel.arg_designId args |}.

(** [handleValidate] up to its [await]. *)
Definition handleValidate_begin (s : State) : State :=
  setError None (setIsLoading true s).

(** The [try] body after the [await] has produced [response]. *)
Definition handleValidate_then (response : ValidationResponse.t) (s : State) : State :=
  match ValidationResponse.success response, ValidationResponse.data response with
  | true, Some data =>
      setSnackbarOpen true (setDrawerOpen true (setValidationResult (Some data) s))
  | _, _ =>
      setError
        (Some (Js.or_else (Some (ValidationResponse.message response)) "Validation failed")) s
  end.

(** [err.response?.data?.detail] *)
Definition detail_of (err : Api.CaughtError.t) : option string :=
  match Api.CaughtError.response err with
  | Some response =>
      match Api.ErrorResponse.data response with
      | Some data => Api.ErrorResponse.detail data
      | None => None
      end
  | None => None
  end.

(** The [catch] clause. *)
Definition handleValidate_catch (err : Api.CaughtError.t) (s : State) : State :=
  setError
    (Some (Js.or_else (detail_of err)
             (Js.or_else (Api.CaughtError.message err)
                "Failed to validate design. Please check if the backend is running.")))
    s.

(** The [finally] clause. *)
Definition handleValidate_finally (s : State) : State := setIsLoading false s.

(** The state [handleValidate] leaves, given the promise of [validateDesign]
    as observed: while it is pending the handler is suspended at its
    [await]. *)
Definition handleValidate (promise : Api.Promise ValidationResponse.t) (s : State) : State :=
  let s := handleValidate_begin s in
  match promise with
  | Api.Pending => s
  | Api.Fulfilled response => handleValidate_finally (handleValidate_then response s)
  | Api.Rejected err => handleValidate_finally (handleValidate_catch err s)
  end.

(** The whole path of one click on the submit button: the request sent and
    the state [elapsed] milliseconds later; [None] when nothing was sent. *)
Definition submit (env : option string)
    (backend : ValidationRequest.t -> Api.Backend ValidationResponse.t)
    (panel : InputPanel.State) (elapsed : N) (s : State)
  : option (ValidationRequest.t * State) :=
  match InputPanel.clickSubmit (isLoading s) panel with
  | Some args =>
      let request := request_of args in
      Some (request, handleValidate (Api.validateDesign env backend request elapsed) s)
  | None => None
  end.

(** The promise has settled. *)
Definition settled (promise : Api.Promise ValidationResponse.t) : bool :=
  match promise with
  | Api.Pending => false
  | _ => true
  end.

(** A failed attempt: the call rejects, or the response has [success] false
    or no [data]. *)
Definition attempt_failed (promise : Api.Promise ValidationResponse.t) : bool :=
  match promise with
  | Api.Pending => false
  | Api.Fulfilled response =>
      negb (ValidationResponse.success response) ||
      match ValidationResponse.data response with Some _ => false | None => true end
  | Api.Rejected _ => true
  end.

(** [validationResult?.validation || []] *)
Definition validations (s : State) : list FieldValidation :=
  match validationResult s with
  | Some result => ValidationResult.validation result
  | None => []
  end.

Definition status_eqb (a b : ValidationStatus) : bool :=
  match a, b with
  | PASS, PASS | WARN, WARN | FAIL, FAIL => true
  | _, _ => false
  end.

(** [validations.filter(v => v.status === s).length] *)
Definition count_status (s : ValidationStatus) (vs : list FieldValidation) : nat :=
  List.length (filter (fun v => status_eqb (status v) s) vs).

(** The confidence summary card. *)
Record Summary := {
  summaryPercentText : string;
  passCount : nat;
  warnCount : nat;
  failCount : nat
}.

Record View := {
  reasoningButtonDisabled : bool;
  errorAlert : option string;
  resultsTable : ResultsTable.View;
  summary : option Summary;
  drawer : option ReasoningDrawer.Drawer;
  snackbar : bool
}.

Section Rounding.

Variable fl : Q -> Q.

Definition summaryCard (s : State) : option Summary :=
  match validationResult s with
  | Some result =>
      let overall := ConfidenceScore.overall (ValidationResult.confidence result) in
      Some {| summaryPercentText :=
                Js.render_number (Js.Math_round (fl (overall * (100 # 1)))) ++ "%";
              passCount := count_status PASS (validations s);
              warnCount := count_status WARN (validations s);
              failCount := count_status FAIL (validations s) |}
  | None => None
  end.

(** What the page renders in a state whose [error] cell holds what its type
    says, a string or [null]. *)
Definition render (s : State) : Js.Completion View :=
  d <- ReasoningDrawer.ReasoningDrawer fl (drawerOpen s) (validationResult s) ;;
  Js.Normal
    {| reasoningButtonDisabled :=
         match validationResult s with Some _ => false | None => true end;
       errorAlert := if Js.truthy (error s) then error s else None;
       resultsTable := ResultsTable.ResultsTable (validations s);
       summary := summaryCard s;
       drawer := d;
       snackbar := snackbarOpen s |}.

End Rounding.

End Page.

(** ** The orchestration core

    The stages below run in the back end, whose code is not among the front
    end's files; each is written after the specification's words. *)

Module Core.

Inductive CanonicalField :=
| f_standard | f_voltage | f_conductor_material | f_conductor_class
| f_csa | f_insulation_material | f_insulation_thickness.

Inductive Provenance := structured | extracted_from_text | looked_up_by_id.

(** Modelled from the spec: the back end's canonical design (section 3): the
    seven optional fields and the provenance tag of the input mode. *)
Record CanonicalDesign := {
  design_fields : CableDesignInput;
  provenance : Provenance
}.

Definition no_fields : CableDesignInput :=
  {| standard := None; voltage := None; conductor_material := None;
     conductor_class := None; csa := None; insulation_material := None;
     insulation_thickness := None |}.

(** *** InputNormalizer (section 4.1) *)

Inductive InputErrorKind := Empty | NotFound.

(** The three input modes, as the tagged union of section 9. *)
Inductive InputMode :=
| Structured (d : CableDesignInput)
| FreeText (text : Js.ustring)
| ByReference (id : Z).

Record Normalized := {
  canonical : CanonicalDesign;
  raw_text : option Js.ustring
}.

(** Modelled from the spec: the test "empty/whitespace-only" of the back
    end's normalizer: every code unit of the text is white space. *)
Definition whitespace_only (text : Js.ustring) : bool :=
  forallb Js.is_whitespace text.

(** Modelled from the spec: the back end's InputNormalizer (section 4.1).
    No input is [InputError(Empty)], and so is a free text that is empty or
    white space only; a record the storage does not find is
    [InputError(NotFound)]; a stored record is copied as it is; a free text
    is passed on raw, no field extracted. *)
Definition InputNormalizer (lookup_design : Z -> option CableDesignInput)
    (input : option InputMode) : InputErrorKind + Normalized :=
  match input with
  | None => inl Empty
  | Some (Structured d) =>
      inr {| canonical := {| design_fields := d; provenance := structured |};
             raw_text := None |}
  | Some (FreeText text) =>
      if whitespace_only text then inl Empty
      else inr {| canonical := {| design_fields := no_fields;
                                  provenance := extracted_from_text |};
                  raw_text := Some text |}
  | Some (ByReference id) =>
      match lookup_design id with
      | Some d =>
          inr {| canonical := {| design_fields := d; provenance := looked_up_by_id |};
                 raw_text := None |}
      | None => inl NotFound
      end
  end.

(** *** ResponseParser, rule (2) (section 4.3) *)

Inductive ParseErrorKind := Malformed | InvalidStatus | UnknownField | MissingReasoning.

(** An ASCII letter in upper case; any other character as it is. *)
Definition upcase (c : ascii) : ascii :=
  let n := nat_of_ascii c in
  if ((97 <=? n) && (n <=? 122))%nat then ascii_of_nat (n - 32) else c.

Fixpoint uppercase (s : string) : string :=
  match s with
  | EmptyString => EmptyString
  | String c rest => String (upcase c) (uppercase rest)
  end.

(** An ASCII letter in lower case; any other character as it is. *)
Definition downcase (c : ascii) : ascii :=
  let n := nat_of_ascii c in
  if ((65 <=? n) && (n <=? 90))%nat then ascii_of_nat (n + 32) else c.

Fixpoint lowercase (s : string) : string :=
  match s with
  | EmptyString => EmptyString
  | String c rest => String (downcase c) (lowercase rest)
  end.

(** Two tokens match case-insensitively when they are the same once their
    ASCII letters are folded to lower case. *)
Definition same_ignoring_case (a b : string) : bool :=
  String.eqb (lowercase a) (lowercase b).

(** Modelled from the spec: the status rule of the back end's ResponseParser
    (section 4.3, rule 2): the token is case-normalized, and must then be
    one of the three values; any other token is [ParseError(InvalidStatus)]. *)
Definition parse_status (token : string) : ParseErrorKind + ValidationStatus :=
  let t := uppercase token in
  if String.eqb t "PASS" then inr PASS
  else if String.eqb t "WARN" then inr WARN
  else if String.eqb t "FAIL" then inr FAIL
  else inl InvalidStatus.

(** *** ConfidenceAggregator (section 4.4) *)

Module FieldVerdict.
Record t := {
  field_name : CanonicalField;
  provided_value : option string;
  expected_value_or_range : option string;
  status : ValidationStatus;
  comment : string
}.
End FieldVerdict.

Module ParsedVerdict.
Record t := {
  extracted_fields : CanonicalDesign;
  field_verdicts : list FieldVerdict.t;
  raw_reasoning_text : string;
  declared_confidence : option Q
}.
End ParsedVerdict.

Module ValidationOutcome.
Record t := {
  overall_status : ValidationStatus;
  overall_confidence : Q;
  field_verdicts : list FieldVerdict.t;
  extracted_fields : CanonicalDesign;
  reasoning_text : string
}.
End ValidationOutcome.

Inductive AggregationError := EmptyVerdictSet.

(** FAIL dominates WARN dominates PASS. *)
Definition severity (s : ValidationStatus) : nat :=
  match s with
  | PASS => 0
  | WARN => 1
  | FAIL => 2
  end.

Definition worse (a b : ValidationStatus) : ValidationStatus :=
  if (severity a <? severity b)%nat then b else a.

(** Modelled from the spec: the aggregator's overall status (section 4.4):
    the most severe status present among the verdicts of a list that has a
    first verdict. *)
Definition worst_status (first : FieldVerdict.t) (rest : list FieldVerdict.t)
  : ValidationStatus :=
  fold_left (fun acc v => worse acc (FieldVerdict.status v)) rest
    (FieldVerdict.status first).

(** The fixed fallback bands: PASS 0.95, WARN 0.65, FAIL 0.30. *)
Definition implied_confidence (s : ValidationStatus) : Q :=
  match s with
  | PASS => 95 # 100
  | WARN => 65 # 100
  | FAIL => 30 # 100
  end.

Definition mean (xs : list Q) : Q :=
  (fold_right Qplus 0 xs / inject_Z (Z.of_nat (List.length xs)))%Q.

(** Modelled from the spec: the back end's ConfidenceAggregator
    (section 4.4).  An empty verdict list is
    [AggregationError(EmptyVerdictSet)]; otherwise the overall status is the
    worst one present, and the overall confidence is the declared one when
    there is one, the mean of the implied bands when there is none. *)
Definition aggregate (pv : ParsedVerdict.t) : AggregationError + ValidationOutcome.t :=
  match ParsedVerdict.field_verdicts pv with
  | [] => inl EmptyVerdictSet
  | first :: rest =>
      inr {| ValidationOutcome.overall_status := worst_status first rest;
             ValidationOutcome.overall_confidence :=
               match ParsedVerdict.declared_confidence pv with
               | Some c => c
               | None =>
                   mean (map (fun v => implied_confidence (FieldVerdict.status v))
                           (first :: rest))
               end;
             ValidationOutcome.field_verdicts := first :: rest;
             ValidationOutcome.extracted_fields := ParsedVerdict.extracted_fields pv;
             ValidationOutcome.reasoning_text := ParsedVerdict.raw_reasoning_text pv |}
  end.

End Core.

(** ** The rest of the front end *)

(** *** components/InputPanel.tsx: the tab panels *)

Module TabPanel.

(** What a [TabPanel] renders: a [div] with its [hidden] attribute, holding
    its children only when its index is the selected one. *)
Record View (A : Type) := { hidden : bool; children : option A }.

Arguments hidden {A} v.
Arguments children {A} v.

Definition TabPanel {A} (content : A) (value index : Z) : View A :=
  {| hidden := negb (value =? index);
     children := if value =? index then Some content else None |}.

(** The three forms of the input panel. *)
Inductive Form := StructuredForm | FreeTextForm | DatabaseForm.

(** The three panels as [InputPanel] lays them out. *)
Definition panels (tabValue : Z) : list (View Form) :=
  [ TabPanel StructuredForm tabValue 0;
    TabPanel FreeTextForm tabValue 1;
    TabPanel DatabaseForm tabValue 2 ].

(** The forms on screen. *)
Definition shown (tabValue : Z) : list Form :=
  flat_map (fun v => match children v with Some f => [f] | None => [] end)
    (panels tabValue).

(** The form an [onValidate] call carries the data of. *)
Definition form_of (args : InputPanel.OnValidate) : option Form :=
  match InputPanel.arg_design args, InputPanel.arg_freeText args,
        InputPanel.arg_designId args with
  | Some _, None, None => Some StructuredForm
  | None, Some _, None => Some FreeTextForm
  | None, None, Some _ => Some DatabaseForm
  | _, _, _ => None
  end.

End TabPanel.

(** *** services/api.ts and page.tsx: the saved designs *)

Module Designs.

Module DesignListResponse.
Record t := {
  success : bool;
  data : list Page.CableDesign.t;
  count : Z
}.
End DesignListResponse.

(** [getDesignList()]: [apiClient.get('/design/list')], then
    [response.data]. *)
Definition getDesignList (env : option string)
    (backend : Api.Backend DesignListResponse.t) (elapsed : N)
  : Api.Promise DesignListResponse.t :=
  Api.axios_request (Api.apiClient env) backend elapsed.

Definition setSavedDesigns (v : list Page.CableDesign.t) (s : Page.State) : Page.State :=
  {| Page.isLoading := Page.isLoading s; Page.savedDesigns := v;
     Page.validationResult := Page.validationResult s; Page.error := Page.error s;
     Page.drawerOpen := Page.drawerOpen s; Page.snackbarOpen := Page.snackbarOpen s |}.

(** [loadSavedDesigns], given the promise of [getDesignList] as observed: a
    rejection is only written to the console. *)
Definition loadSavedDesigns (promise : Api.Promise DesignListResponse.t)
    (s : Page.State) : Page.State :=
  match promise with
  | Api.Pending => s
  | Api.Fulfilled response =>
      if DesignListResponse.success response
      then setSavedDesigns (DesignListResponse.data response) s
      else s
  | Api.Rejected _ => s
  end.

End Designs.

(** *** page.tsx: the page as it reacts to events *)

Module App.

(** What a settled call of [validateDesign] hands to [handleValidate]. *)
Inductive Outcome :=
| Resolved (response : ValidationResponse.t)
| Failed (err : Api.CaughtError.t).

(** [handleValidate] from its [await] on, in the state of that moment. *)
Definition settle (o : Outcome) (s : Page.State) : Page.State :=
  match o with
  | Resolved response => Page.handleValidate_finally (Page.handleValidate_then response s)
  | Failed err => Page.handleValidate_finally (Page.handleValidate_catch err s)
  end.

(** The page with the calls of [validateDesign] that have not settled. *)
Record World := { page : Page.State; inflight : nat }.

Definition start : World := {| page := Page.initial; inflight := 0 |}.

Inductive Event :=
| ClickSubmit (panel : InputPanel.State)
| CallSettles (o : Outcome)
| DesignsArrive (promise : Api.Promise Designs.DesignListResponse.t)
| ClickViewReasoning
| ClickRow
| CloseDrawer
| CloseSnackbar
| CloseAlert.

(** One event.  A disabled button runs no handler, a table without rows has
    no row to click, and a call settles only if one was made. *)
Definition step (w : World) (e : Event) : World :=
  let s := page w in
  match e with
  | ClickSubmit panel =>
      match InputPanel.clickSubmit (Page.isLoading s) panel with
      | Some _ => {| page := Page.handleValidate_begin s; inflight := S (inflight w) |}
      | None => w
      end
  | CallSettles o =>
      match inflight w with
      | O => w
      | S n => {| page := settle o s; inflight := n |}
      end
  | DesignsArrive promise =>
      {| page := Designs.loadSavedDesigns promise s; inflight := inflight w |}
  | ClickViewReasoning =>
      match Page.validationResult s with
      | Some _ => {| page := Page.setDrawerOpen true s; inflight := inflight w |}
      | None => w
      end
  | ClickRow =>
      match ResultsTable.ResultsTable (Page.validations s) with
      | ResultsTable.DataGrid (_ :: _) _ =>
          {| page := Page.setDrawerOpen true s; inflight := inflight w |}
      | _ => w
      end
  | CloseDrawer => {| page := Page.setDrawerOpen false s; inflight := inflight w |}
  | CloseSnackbar => {| page := Page.setSnackbarOpen false s; inflight := inflight w |}
  | CloseAlert => {| page := Page.setError None s; inflight := inflight w |}
  end.

Definition run (events : list Event) (w : World) : World := fold_left step events w.

(** A result is stored. *)
Definition has_result (s : Page.State) : Prop :=
  exists r, Page.validationResult s = Some r.

(** The drawer and the snackbar are open only with a result. *)
Definition open_implies_result (w : World) : Prop :=
  (Page.drawerOpen (page w) = true -> has_result (page w)) /\
  (Page.snackbarOpen (page w) = true -> has_result (page w)).

(** The loading flag is set exactly when one call is in flight, and there
    is never more than one. *)
Definition loading_matches_inflight (w : World) : Prop :=
  (inflight w = 0%nat /\ Page.isLoading (page w) = false) \/
  (inflight w = 1%nat /\ Page.isLoading (page w) = true).

End App.

(** *** ReasoningDrawer.tsx: the order of the bands *)

Definition band_rank (c : ReasoningDrawer.Color) : nat :=
  match c with
  | ReasoningDrawer.error => 0
  | ReasoningDrawer.warning => 1
  | ReasoningDrawer.success => 2
  end.

(** ** Sample values *)

Module Samples.

Import Core.

Definition verdict (f : CanonicalField) (s : ValidationStatus) : FieldVerdict.t :=
  {| FieldVerdict.field_name := f; FieldVerdict.provided_value := None;
     FieldVerdict.expected_value_or_range := None;
     FieldVerdict.status := s; FieldVerdict.comment := "checked" |}.

Definition parsed (vs : list FieldVerdict.t) : ParsedVerdict.t :=
  {| ParsedVerdict.extracted_fields :=
       {| design_fields := no_fields; provenance := structured |};
     ParsedVerdict.field_verdicts := vs;
     ParsedVerdict.raw_reasoning_text := "reasoning";
     ParsedVerdict.declared_confidence := None |}.

(** Exact arithmetic as the rounding of a product. *)
Definition exact (x : Q) : Q := x.

Definition result (c : Q) : ValidationResult.t :=
  {| ValidationResult.fields := None;
     ValidationResult.validation :=
       [ {| field := "csa"; provided := Some "10"; expected := None;
            status := PASS; comment := "within range" |} ];
     ValidationResult.confidence :=
       {| ConfidenceScore.overall := c; ConfidenceScore.reasoning := None |};
     ValidationResult.reasoning := "reasoning" |}.

Definition request : ValidationRequest.t :=
  {| ValidationRequest.design := Some InputPanel.defaultDesign;
     ValidationRequest.free_text := None;
     ValidationRequest.design_id := None |}.

Definition networkError : Api.CaughtError.t :=
  {| Api.CaughtError.response := None;
     Api.CaughtError.message := Some "Network Error" |}.

End Samples.

(** * Properties *)

(** ** Aggregation of the verdicts *)

Section Aggregation.

Import Core.

Lemma worse_FAIL_iff (a b : ValidationStatus) :
  worse a b = FAIL <-> a = FAIL \/ b = FAIL.
Proof. destruct a, b; cbv; intuition congruence. Qed.

Lemma worse_PASS_iff (a b : ValidationStatus) :
  worse a b = PASS <-> a = PASS /\ b = PASS.
Proof. destruct a, b; cbv; intuition congruence. Qed.

Lemma fold_worse_FAIL_iff (rest : list FieldVerdict.t) :
  forall acc,
    fold_left (fun acc v => worse acc (FieldVerdict.status v)) rest acc = FAIL <->
    acc = FAIL \/ exists v, In v rest /\ FieldVerdict.status v = FAIL.
Proof.
  induction rest as [|w rest IH]; intros acc; simpl.
  - split; [now left | intros [H | [v [[] _]]]; exact H].
  - rewrite IH, worse_FAIL_iff. split.
    + intros [[H | H] | [v [Hin Hv]]].
      * now left.
      * right. exists w. split; [now left | exact H].
      * right. exists v. split; [now right | exact Hv].
    + intros [H | [v [[Heq | Hin] Hv]]].
      * left. now left.
      * subst v. left. now right.
      * right. exists v. now split.
Qed.

Lemma fold_worse_PASS_iff (rest : list FieldVerdict.t) :
  forall acc,
    fold_left (fun acc v => worse acc (FieldVerdict.status v)) rest acc = PASS <->
    acc = PASS /\ forall v, In v rest -> FieldVerdict.status v = PASS.
Proof.
  induction rest as [|w rest IH]; intros acc; simpl.
  - split; [intros H; split; [exact H | intros v []] | now intros [H _]].
  - rewrite IH, worse_PASS_iff. split.
    + intros [[Ha Hw] Hrest]. split; [exact Ha|].
      intros v [Heq | Hin]; [now subst v | now apply Hrest].
    + intros [Ha Hall]. repeat split.
      * exact Ha.
      * apply Hall. now left.
      * intros v Hin. apply Hall. now right.
Qed.

Lemma worst_status_FAIL_iff (first : FieldVerdict.t) (rest : list FieldVerdict.t) :
  worst_status first rest = FAIL <->
  exists v, In v (first :: rest) /\ FieldVerdict.status v = FAIL.
Proof.
  unfold worst_status. rewrite (fold_worse_FAIL_iff rest). simpl. split.
  - intros [H | [v [Hin Hv]]]; [exists first | exists v]; auto.
  - intros [v [[Heq | Hin] Hv]]; [subst v; now left | right; now exists v].
Qed.

Lemma worst_status_PASS_iff (first : FieldVerdict.t) (rest : list FieldVerdict.t) :
  worst_status first rest = PASS <->
  forall v, In v (first :: rest) -> FieldVerdict.status v = PASS.
Proof.
  unfold worst_status. rewrite (fold_worse_PASS_iff rest). simpl. split.
  - intros [Hf Hrest] v [Heq | Hin]; [now subst v | now apply Hrest].
  - intros Hall. split; [apply Hall; now left | intros v Hin; apply Hall; now right].
Qed.

(** C1. For a verdict list that is not empty the aggregator produces an
    outcome; its overall status is FAIL when some verdict is FAIL, WARN when
    none is FAIL and some verdict is WARN, and PASS exactly when every
    verdict is PASS. *)
Theorem overall_status_is_worst_present (pv : ParsedVerdict.t) :
  ParsedVerdict.field_verdicts pv <> [] ->
  exists out,
    aggregate pv = inr out /\
    ((exists v, In v (ParsedVerdict.field_verdicts pv) /\ FieldVerdict.status v = FAIL) ->
     ValidationOutcome.overall_status out = FAIL) /\
    ((forall v, In v (ParsedVerdict.field_verdicts pv) -> FieldVerdict.status v <> FAIL) ->
     (exists v, In v (ParsedVerdict.field_verdicts pv) /\ FieldVerdict.status v = WARN) ->
     ValidationOutcome.overall_status out = WARN) /\
    (ValidationOutcome.overall_status out = PASS <->
     forall v, In v (ParsedVerdict.field_verdicts pv) -> FieldVerdict.status v = PASS).
Proof.
  intros Hne. unfold aggregate.
  destruct (ParsedVerdict.field_verdicts pv) as [|first rest] eqn:Hvs; [congruence|].
  eexists. split; [reflexivity|]. cbn [ValidationOutcome.overall_status].
  split; [|split].
  - intros Hfail. now apply worst_status_FAIL_iff.
  - intros Hnofail [w [Hin Hw]].
    destruct (worst_status first rest) eqn:Hworst; [|reflexivity|].
    + pose proof (proj1 (worst_status_PASS_iff first rest) Hworst w Hin). congruence.
    + apply worst_status_FAIL_iff in Hworst. destruct Hworst as [v [Hv Hf]].
      now destruct (Hnofail v Hv).
  - apply worst_status_PASS_iff.
Qed.

Lemma overall_status_is_worst_present_witness :
  let pv := Samples.parsed
              [Samples.verdict f_csa PASS; Samples.verdict f_insulation_thickness FAIL;
               Samples.verdict f_voltage WARN] in
  ParsedVerdict.field_verdicts pv <> [] /\
  exists out,
    aggregate pv = inr out /\
    ((exists v, In v (ParsedVerdict.field_verdicts pv) /\ FieldVerdict.status v = FAIL) ->
     ValidationOutcome.overall_status out = FAIL) /\
    ((forall v, In v (ParsedVerdict.field_verdicts pv) -> FieldVerdict.status v <> FAIL) ->
     (exists v, In v (ParsedVerdict.field_verdicts pv) /\ FieldVerdict.status v = WARN) ->
     ValidationOutcome.overall_status out = WARN) /\
    (ValidationOutcome.overall_status out = PASS <->
     forall v, In v (ParsedVerdict.field_verdicts pv) -> FieldVerdict.status v = PASS).
Proof.
  split.
  - discriminate.
  - apply (overall_status_is_worst_present
             (Samples.parsed
                [Samples.verdict f_csa PASS; Samples.verdict f_insulation_thickness FAIL;
                 Samples.verdict f_voltage WARN])).
    discriminate.
Defined.

Example six_pass_one_warn :
  option_map ValidationOutcome.overall_status
    (match aggregate
             (Samples.parsed
                (map (fun f => Samples.verdict f PASS)
                   [f_standard; f_voltage; f_conductor_material; f_conductor_class;
                    f_csa; f_insulation_material]
                 ++ [Samples.verdict f_insulation_thickness WARN])) with
     | inr out => Some out
     | inl _ => None
     end) = Some WARN.
Proof. reflexivity. Qed.

(** C2. A parsed verdict whose verdict list is empty is not aggregated: the
    result is [AggregationError(EmptyVerdictSet)], so no outcome, and in
    particular none with status PASS, comes out of it; and the results table
    given no verdicts shows its placeholder and no status chip. *)
Theorem empty_verdicts_never_pass (pv : ParsedVerdict.t) :
  ParsedVerdict.field_verdicts pv = [] ->
  aggregate pv = inl EmptyVerdictSet /\
  (forall out, aggregate pv = inr out -> False) /\
  ResultsTable.ResultsTable [] =
    ResultsTable.Placeholder "Submit a design to see validation results" /\
  ResultsTable.chips (ResultsTable.ResultsTable []) = [].
Proof.
  intros Hempty. unfold aggregate. rewrite Hempty.
  repeat split; intros; discriminate.
Qed.

Lemma empty_verdicts_never_pass_witness :
  ParsedVerdict.field_verdicts (Samples.parsed []) = [] /\
  aggregate (Samples.parsed []) = inl EmptyVerdictSet /\
  (forall out, aggregate (Samples.parsed []) = inr out -> False) /\
  ResultsTable.ResultsTable [] =
    ResultsTable.Placeholder "Submit a design to see validation results" /\
  ResultsTable.chips (ResultsTable.ResultsTable []) = [].
Proof.
  split.
  - reflexivity.
  - apply (empty_verdicts_never_pass (Samples.parsed [])). reflexivity.
Defined.

(** Only an empty list makes the aggregator fail. *)
Lemma aggregate_fails_only_when_empty (pv : ParsedVerdict.t) (e : AggregationError) :
  aggregate pv = inl e -> ParsedVerdict.field_verdicts pv = [].
Proof.
  unfold aggregate. destruct (ParsedVerdict.field_verdicts pv); [reflexivity | discriminate].
Qed.

End Aggregation.

(** ** The input panel and the request it sends *)

Section Submission.

Import InputPanel.

Lemma trimStart_nil_iff (s : Js.ustring) :
  Js.trimStart s = [] <-> forallb Js.is_whitespace s = true.
Proof.
  induction s as [|c s IH]; simpl.
  - tauto.
  - destruct (Js.is_whitespace c); simpl; [exact IH|].
    split; discriminate.
Qed.

Lemma trimStart_head (s : Js.ustring) (c : N) (rest : Js.ustring) :
  Js.trimStart s = c :: rest -> Js.is_whitespace c = false.
Proof.
  induction s as [|d s IH]; simpl; [discriminate|].
  destruct (Js.is_whitespace d) eqn:Hd; [exact IH|].
  intros Heq. injection Heq as -> _. exact Hd.
Qed.

Lemma forallb_rev {A} (f : A -> bool) (l : list A) :
  forallb f (rev l) = forallb f l.
Proof.
  induction l as [|a l IH]; simpl; [reflexivity|].
  rewrite forallb_app, IH. simpl. rewrite andb_true_r. apply andb_comm.
Qed.

Lemma rev_nil_inv {A} (l : list A) : rev l = [] -> l = [].
Proof.
  intros H. rewrite <- (rev_involutive l), H. reflexivity.
Qed.

(** [trim] leaves nothing exactly of the strings made of white space. *)
Lemma trim_nil_iff (s : Js.ustring) :
  Js.trim s = [] <-> forallb Js.is_whitespace s = true.
Proof.
  unfold Js.trim, Js.trimEnd. split.
  - intros H. apply rev_nil_inv in H. apply trimStart_nil_iff in H.
    rewrite forallb_rev in H. apply trimStart_nil_iff.
    destruct (Js.trimStart s) as [|c rest] eqn:Hs; [reflexivity|].
    apply trimStart_head in Hs. simpl in H. rewrite Hs in H. discriminate.
  - intros H. apply trimStart_nil_iff in H. rewrite H. reflexivity.
Qed.

(** What [handleSubmit] passes to [onValidate], tab by tab. *)
Lemma handleSubmit_args (st : State) (args : OnValidate) :
  handleSubmit st = Some args ->
  (tabValue st = 0 /\
   args = {| arg_design := Some (design st); arg_freeText := None; arg_designId := None |}) \/
  (tabValue st = 1 /\
   args = {| arg_design := None; arg_freeText := Some (freeText st); arg_designId := None |}) \/
  (tabValue st = 2 /\ exists id, selectedDesignId st = Some id /\
   args = {| arg_design := None; arg_freeText := None; arg_designId := Some id |}).
Proof.
  unfold handleSubmit.
  destruct (tabValue st =? 0) eqn:H0.
  - intros [= <-]. left. split; [now apply Z.eqb_eq | reflexivity].
  - destruct (tabValue st =? 1) eqn:H1.
    + intros [= <-]. right; left. split; [now apply Z.eqb_eq | reflexivity].
    + destruct (tabValue st =? 2) eqn:H2; [|discriminate].
      destruct (selectedDesignId st) as [id|] eqn:Hid; [|discriminate].
      intros [= <-]. right; right. split; [now apply Z.eqb_eq|].
      exists id. split; reflexivity.
Qed.

(** C3. Whenever a click on the submit button sends a request, that request
    defines exactly one of [design], [free_text] and [design_id]: on the
    structured tab the design of the form and nothing else, on the free-text
    tab the text and nothing else, on the database tab the selected id and
    nothing else; the click was made on one of the three tabs, so no request
    with none of the three is sent. *)
Theorem submitted_request_has_one_alternative
    (env : option string)
    (backend : ValidationRequest.t -> Api.Backend ValidationResponse.t)
    (panel : State) (elapsed : N) (s : Page.State)
    (request : ValidationRequest.t) (s' : Page.State) :
  Page.submit env backend panel elapsed s = Some (request, s') ->
  defined_count request = 1%nat /\
  (tabValue panel = 0 \/ tabValue panel = 1 \/ tabValue panel = 2) /\
  (tabValue panel = 0 ->
   request = {| ValidationRequest.design := Some (design panel);
                ValidationRequest.free_text := None;
                ValidationRequest.design_id := None |}) /\
  (tabValue panel = 1 ->
   request = {| ValidationRequest.design := None;
                ValidationRequest.free_text := Some (freeText panel);
                ValidationRequest.design_id := None |}) /\
  (tabValue panel = 2 ->
   exists id, selectedDesignId panel = Some id /\
   request = {| ValidationRequest.design := None;
                ValidationRequest.free_text := None;
                ValidationRequest.design_id := Some id |}).
Proof.
  unfold Page.submit, clickSubmit.
  destruct (submitDisabled (Page.isLoading s) panel); [discriminate|].
  destruct (handleSubmit panel) as [args|] eqn:Hargs; [|discriminate].
  intros [= <- _].
  apply handleSubmit_args in Hargs.
  destruct Hargs as [[Ht ->] | [[Ht ->] | [Ht [id [Hid ->]]]]];
    unfold Page.request_of; cbn;
    (split; [reflexivity|]); (split; [tauto|]);
    repeat split; intros Ht'; try (rewrite Ht in Ht'; discriminate); try reflexivity.
  exists id. split; [exact Hid | reflexivity].
Qed.

Lemma submitted_request_has_one_alternative_witness :
  let panel := setFreeText [49; 48; 32; 115; 113; 109; 109]%N (handleTabChange 1 initial) in
  let request := {| ValidationRequest.design := None;
                    ValidationRequest.free_text := Some (freeText panel);
                    ValidationRequest.design_id := None |} in
  let s' := Page.handleValidate Api.Pending Page.initial in
  Page.submit None (fun _ => Api.Silent) panel 0 Page.initial = Some (request, s') /\
  defined_count request = 1%nat /\
  (tabValue panel = 0 \/ tabValue panel = 1 \/ tabValue panel = 2) /\
  (tabValue panel = 0 ->
   request = {| ValidationRequest.design := Some (design panel);
                ValidationRequest.free_text := None;
                ValidationRequest.design_id := None |}) /\
  (tabValue panel = 1 ->
   request = {| ValidationRequest.design := None;
                ValidationRequest.free_text := Some (freeText panel);
                ValidationRequest.design_id := None |}) /\
  (tabValue panel = 2 ->
   exists id, selectedDesignId panel = Some id /\
   request = {| ValidationRequest.design := None;
                ValidationRequest.free_text := None;
                ValidationRequest.design_id := Some id |}).
Proof.
  split.
  - reflexivity.
  - apply (submitted_request_has_one_alternative None (fun _ => Api.Silent)
             (setFreeText [49; 48; 32; 115; 113; 109; 109]%N (handleTabChange 1 initial))
             0 Page.initial
             {| ValidationRequest.design := None;
                ValidationRequest.free_text := Some [49; 48; 32; 115; 113; 109; 109]%N;
                ValidationRequest.design_id := None |}
             (Page.handleValidate Api.Pending Page.initial)).
    reflexivity.
Defined.

(** The handler alone, whatever calls it, passes exactly one argument. *)
Lemma handleSubmit_passes_one (st : State) (args : OnValidate) :
  handleSubmit st = Some args -> defined_count (Page.request_of args) = 1%nat.
Proof.
  intros H. apply handleSubmit_args in H.
  destruct H as [[_ ->] | [[_ ->] | [_ [id [_ ->]]]]]; reflexivity.
Qed.

(** C7. On the free-text tab a text that [trim] empties (an empty or
    white-space-only text) is refused: [isValid] is false, the submit button
    is disabled and a click on it sends nothing; and the normalizer, given
    that text as free text, fails with [InputError] instead of producing a
    canonical design. *)
Theorem blank_free_text_is_refused
    (panel : State) (isLoading : bool)
    (lookup_design : Z -> option CableDesignInput) :
  tabValue panel = 1 ->
  Js.trim (freeText panel) = [] ->
  isValid panel = false /\
  submitDisabled isLoading panel = true /\
  clickSubmit isLoading panel = None /\
  (forall env backend elapsed s, Page.submit env backend panel elapsed s = None) /\
  Core.InputNormalizer lookup_design (Some (Core.FreeText (freeText panel))) =
    inl Core.Empty.
Proof.
  intros Htab Htrim.
  assert (Hvalid : isValid panel = false).
  { unfold isValid. rewrite Htab, Htrim. reflexivity. }
  assert (Hdis : forall b, submitDisabled b panel = true).
  { intros b. unfold submitDisabled. rewrite Hvalid. apply orb_true_r. }
  repeat split.
  - exact Hvalid.
  - apply Hdis.
  - unfold clickSubmit. now rewrite Hdis.
  - intros env backend elapsed s. unfold Page.submit, clickSubmit. now rewrite Hdis.
  - simpl. unfold Core.whitespace_only.
    rewrite (proj1 (trim_nil_iff (freeText panel)) Htrim). reflexivity.
Qed.

Lemma blank_free_text_is_refused_witness :
  let panel := setFreeText [32; 9; 10; 160]%N (handleTabChange 1 initial) in
  tabValue panel = 1 /\
  Js.trim (freeText panel) = [] /\
  isValid panel = false /\
  submitDisabled false panel = true /\
  clickSubmit false panel = None /\
  (forall env backend elapsed s, Page.submit env backend panel elapsed s = None) /\
  Core.InputNormalizer (fun _ => None) (Some (Core.FreeText (freeText panel))) =
    inl Core.Empty.
Proof.
  split; [reflexivity|]. split; [reflexivity|].
  apply (blank_free_text_is_refused
           (setFreeText [32; 9; 10; 160]%N (handleTabChange 1 initial)) false
           (fun _ => None)); reflexivity.
Defined.

(** A text with a character that is not white space is accepted. *)
Example free_text_accepted :
  isValid (setFreeText [32; 49; 48; 32]%N (handleTabChange 1 initial)) = true.
Proof. reflexivity. Qed.

End Submission.

(** ** The status vocabulary *)

Section Vocabulary.

Import Core.

Lemma upcase_downcase (c : ascii) : upcase (downcase c) = upcase c.
Proof. destruct c as [[] [] [] [] [] [] [] []]; vm_compute; reflexivity. Qed.

Lemma downcase_upcase (c : ascii) : downcase (upcase c) = downcase c.
Proof. destruct c as [[] [] [] [] [] [] [] []]; vm_compute; reflexivity. Qed.

Lemma uppercase_lowercase (s : string) : uppercase (lowercase s) = uppercase s.
Proof.
  induction s as [|c s IH]; simpl; [reflexivity|].
  now rewrite upcase_downcase, IH.
Qed.

Lemma lowercase_uppercase (s : string) : lowercase (uppercase s) = lowercase s.
Proof.
  induction s as [|c s IH]; simpl; [reflexivity|].
  now rewrite downcase_upcase, IH.
Qed.

Lemma status_value_uppercase (s : ValidationStatus) :
  uppercase (status_value s) = status_value s.
Proof. destruct s; reflexivity. Qed.

Lemma same_ignoring_case_iff (token : string) (s : ValidationStatus) :
  same_ignoring_case token (status_value s) = true <->
  uppercase token = status_value s.
Proof.
  unfold same_ignoring_case. rewrite String.eqb_eq. split; intros H.
  - rewrite <- uppercase_lowercase, H, uppercase_lowercase.
    apply status_value_uppercase.
  - rewrite <- lowercase_uppercase, H. reflexivity.
Qed.

Lemma parse_status_iff (token : string) (s : ValidationStatus) :
  parse_status token = inr s <-> uppercase token = status_value s.
Proof.
  unfold parse_status.
  destruct (String.eqb_spec (uppercase token) "PASS") as [-> | Hp].
  { destruct s; simpl; split; intros H; congruence. }
  destruct (String.eqb_spec (uppercase token) "WARN") as [-> | Hw].
  { destruct s; simpl; split; intros H; congruence. }
  destruct (String.eqb_spec (uppercase token) "FAIL") as [-> | Hf].
  { destruct s; simpl; split; intros H; congruence. }
  destruct s; simpl; split; intros H; congruence.
Qed.

Lemma parse_status_total (token : string) :
  (exists s, parse_status token = inr s) \/ parse_status token = inl InvalidStatus.
Proof.
  unfold parse_status.
  destruct (String.eqb _ "PASS"); [left; now exists PASS|].
  destruct (String.eqb _ "WARN"); [left; now exists WARN|].
  destruct (String.eqb _ "FAIL"); [left; now exists FAIL|].
  now right.
Qed.

Lemma StatusChip_of_status (s : ValidationStatus) (size : StatusChip.Size) :
  exists chip,
    StatusChip.StatusChip (status_value s) size = Js.Normal chip /\
    StatusChip.chip_label chip = status_value s.
Proof. destruct s; eexists; split; reflexivity. Qed.

(** C4. A status token is accepted exactly when it matches PASS, WARN or
    FAIL without regard to case, and it is then that status; any other token
    is an invalid status.  An accepted token is shown by the status chip
    under the canonical upper-case label, which is the status value and the
    token in upper case; and for each of the three statuses the chip's label
    is the status value itself. *)
Theorem status_vocabulary (token : string) (size : StatusChip.Size) :
  (forall s, same_ignoring_case token (status_value s) = true <->
             parse_status token = inr s) /\
  ((forall s, same_ignoring_case token (status_value s) = false) <->
   parse_status token = inl InvalidStatus) /\
  (forall s, same_ignoring_case token (status_value s) = true ->
     exists chip,
       StatusChip.StatusChip (status_value s) size = Js.Normal chip /\
       StatusChip.chip_label chip = status_value s /\
       StatusChip.chip_label chip = uppercase token) /\
  (forall s, exists chip,
     StatusChip.StatusChip (status_value s) size = Js.Normal chip /\
     StatusChip.chip_label chip = status_value s).
Proof.
  split; [|split; [|split]].
  - intros s. now rewrite same_ignoring_case_iff, parse_status_iff.
  - split.
    + intros Hnone. destruct (parse_status_total token) as [[s Hs] | H]; [|exact H].
      apply parse_status_iff, same_ignoring_case_iff in Hs.
      rewrite Hnone in Hs. discriminate.
    + intros Hinv s.
      destruct (same_ignoring_case token (status_value s)) eqn:Hm; [|reflexivity].
      apply same_ignoring_case_iff, parse_status_iff in Hm. congruence.
  - intros s Hm. apply same_ignoring_case_iff in Hm.
    destruct (StatusChip_of_status s size) as [chip [Hchip Hlabel]].
    exists chip. repeat split; congruence.
  - intros s. apply StatusChip_of_status.
Qed.

Example mixed_case_token_accepted : parse_status "wArN" = inr WARN.
Proof. reflexivity. Qed.

Example other_token_rejected : parse_status "MISSING" = inl InvalidStatus.
Proof. reflexivity. Qed.

(** The chip itself looks its key up as it is: it is the parser that folds
    the case. *)
Example StatusChip_key_is_exact :
  StatusChip.StatusChip "pass" StatusChip.medium = Js.Throw Js.TypeError.
Proof. reflexivity. Qed.

End Vocabulary.

(** ** The confidence score on screen *)

Section Confidence.

Import ReasoningDrawer.

Local Open Scope Q_scope.

(** The rounding of [confidence * 100] to a double: monotone, and exact on
    the doubles 0 and 100. *)
Variable fl : Q -> Q.
Hypothesis fl_monotone : forall x y, x <= y -> fl x <= fl y.
Hypothesis fl_0 : fl (0 # 1) == 0 # 1.
Hypothesis fl_100 : fl (100 # 1) == 100 # 1.

Lemma Math_round_monotone (x y : Q) :
  x <= y -> (Js.Math_round x <= Js.Math_round y)%Z.
Proof.
  intros H. unfold Js.Math_round. apply Qfloor_resp_le. lra.
Qed.

Lemma percent_in_range (c : Q) :
  0 <= c <= 1 -> (0 <= Js.Math_round (fl (c * (100 # 1))) <= 100)%Z.
Proof.
  intros [Hlo Hhi]. split.
  - apply Z.le_trans with (Js.Math_round (0 # 1)); [apply Z.le_refl|].
    apply Math_round_monotone.
    apply Qle_trans with (fl (0 # 1)).
    + rewrite fl_0. apply Qle_refl.
    + apply fl_monotone. lra.
  - apply Z.le_trans with (Js.Math_round (100 # 1)); [|apply Z.le_refl].
    apply Math_round_monotone.
    apply Qle_trans with (fl (100 # 1)).
    + apply fl_monotone. lra.
    + rewrite fl_100. apply Qle_refl.
Qed.

(** C5. For a result whose overall confidence lies in [0,1], both places
    that show the confidence (the drawer and the summary card of the page)
    show the integer [Math.round(overall * 100)] followed by a percent sign,
    and that integer lies in [0,100]. *)
Theorem confidence_percent_shown
    (open : bool) (result : ValidationResult.t) (s : Page.State) :
  0 <= ConfidenceScore.overall (ValidationResult.confidence result) <= 1 ->
  let percent :=
    Js.Math_round
      (fl (ConfidenceScore.overall (ValidationResult.confidence result) * (100 # 1))) in
  (0 <= percent <= 100)%Z /\
  (exists d,
     ReasoningDrawer fl open (Some result) = Js.Normal (Some d) /\
     percentText d = (Js.render_number percent ++ "%")%string /\
     progressValue d = percent) /\
  (Page.validationResult s = Some result ->
   exists card,
     Page.summaryCard fl s = Some card /\
     Page.summaryPercentText card = (Js.render_number percent ++ "%")%string).
Proof.
  intros Hrange percent. split; [|split].
  - now apply percent_in_range.
  - eexists. repeat split.
  - intros Hs. unfold Page.summaryCard. rewrite Hs. eexists. split; reflexivity.
Qed.

End Confidence.

Lemma confidence_percent_shown_witness :
  let fl := Samples.exact in
  let result := Samples.result (92 # 100) in
  let s := Page.setValidationResult (Some result) Page.initial in
  let percent :=
    Js.Math_round
      (fl (ConfidenceScore.overall (ValidationResult.confidence result) * (100 # 1))%Q) in
  (forall x y, x <= y -> fl x <= fl y)%Q /\
  (fl (0 # 1) == 0 # 1)%Q /\
  (fl (100 # 1) == 100 # 1)%Q /\
  (0 <= ConfidenceScore.overall (ValidationResult.confidence result) <= 1)%Q /\
  (0 <= percent <= 100)%Z /\
  (exists d,
     ReasoningDrawer.ReasoningDrawer fl true (Some result) = Js.Normal (Some d) /\
     ReasoningDrawer.percentText d = Js.render_number percent ++ "%" /\
     ReasoningDrawer.progressValue d = percent) /\
  (Page.validationResult s = Some result ->
   exists card,
     Page.summaryCard fl s = Some card /\
     Page.summaryPercentText card = Js.render_number percent ++ "%").
Proof.
  split; [exact (fun x y H => H)|].
  split; [reflexivity|].
  split; [reflexivity|].
  split; [split; discriminate|].
  apply (confidence_percent_shown Samples.exact (fun x y H => H)
           (Qeq_refl (0 # 1)) (Qeq_refl (100 # 1)) true
           (Samples.result (92 # 100))
           (Page.setValidationResult (Some (Samples.result (92 # 100))) Page.initial)).
  split; discriminate.
Defined.

Example drawer_shows_92_percent :
  option_map ReasoningDrawer.percentText
    (match ReasoningDrawer.ReasoningDrawer Samples.exact true
             (Some (Samples.result (92 # 100))) with
     | Js.Normal d => d
     | Js.Throw _ => None
     end) = Some "92%".
Proof. reflexivity. Qed.

(** ** The confidence bands and the drawer *)

Section Drawer.

Import ReasoningDrawer.

Local Open Scope Q_scope.

Lemma Qle_bool_false_iff (x y : Q) : Qle_bool x y = false <-> y < x.
Proof.
  rewrite <- Bool.not_true_iff_false, Qle_bool_iff. split.
  - apply Qnot_le_lt.
  - apply Qlt_not_le.
Qed.

Lemma double_0_85_is_nearest :
  double_0_85 < 85 # 100 /\
  85 # 100 < double_0_85 + (1 # 9007199254740992) /\
  (85 # 100) - double_0_85 < double_0_85 + (1 # 9007199254740992) - (85 # 100).
Proof. repeat split. Qed.

Lemma double_0_65_is_nearest :
  double_0_65 - (1 # 9007199254740992) < 65 # 100 /\
  65 # 100 < double_0_65 /\
  double_0_65 - (65 # 100) < (65 # 100) - (double_0_65 - (1 # 9007199254740992)).
Proof. repeat split. Qed.

Lemma grid_cut_high (m : Z) :
  double_0_85 <= m # 9007199254740992 <->
  85 # 100 <= m # 9007199254740992 \/ m # 9007199254740992 == double_0_85.
Proof.
  unfold double_0_85, Qle, Qeq. cbn [Qnum Qden]. lia.
Qed.

Lemma grid_cut_medium (m : Z) :
  double_0_65 <= m # 9007199254740992 <-> 65 # 100 <= m # 9007199254740992.
Proof.
  unfold double_0_65, Qle. cbn [Qnum Qden]. lia.
Qed.

(** C6. The two banding functions cut at the same places, the numbers the
    literals 0.85 and 0.65 are: a score is labelled High Confidence, and
    coloured success, exactly when it is at least 0.85; Medium Confidence,
    and warning, exactly when it is at least 0.65 and below 0.85; Low
    Confidence, and error, exactly when it is below 0.65.  Read in decimal,
    for a score that is a double: the lower cut is the decimal 0.65 itself,
    and the upper cut is the decimal 0.85 together with the one double that
    0.85 denotes. *)
Theorem confidence_bands (c : Q) :
  (getConfidenceLabel c = "High Confidence"%string <-> double_0_85 <= c) /\
  (getConfidenceColor c = success <-> double_0_85 <= c) /\
  (getConfidenceLabel c = "Medium Confidence"%string <->
   double_0_65 <= c < double_0_85) /\
  (getConfidenceColor c = warning <-> double_0_65 <= c < double_0_85) /\
  (getConfidenceLabel c = "Low Confidence"%string <-> c < double_0_65) /\
  (getConfidenceColor c = error <-> c < double_0_65) /\
  (on_double_grid c ->
   (double_0_85 <= c <-> 85 # 100 <= c \/ c == double_0_85) /\
   (double_0_65 <= c <-> 65 # 100 <= c)).
Proof.
  assert (Hbands :
    (getConfidenceLabel c = "High Confidence"%string <-> double_0_85 <= c) /\
    (getConfidenceColor c = success <-> double_0_85 <= c) /\
    (getConfidenceLabel c = "Medium Confidence"%string <->
     double_0_65 <= c < double_0_85) /\
    (getConfidenceColor c = warning <-> double_0_65 <= c < double_0_85) /\
    (getConfidenceLabel c = "Low Confidence"%string <-> c < double_0_65) /\
    (getConfidenceColor c = error <-> c < double_0_65)).
  { assert (Hcuts : double_0_65 < double_0_85) by reflexivity.
    unfold getConfidenceLabel, getConfidenceColor.
    destruct (Qle_bool double_0_85 c) eqn:Hhigh;
      [apply Qle_bool_iff in Hhigh | apply Qle_bool_false_iff in Hhigh];
      (destruct (Qle_bool double_0_65 c) eqn:Hmed;
         [apply Qle_bool_iff in Hmed | apply Qle_bool_false_iff in Hmed]);
      repeat split; intros; try discriminate; try assumption; try lra;
      exfalso; lra. }
  destruct Hbands as [H1 [H2 [H3 [H4 [H5 H6]]]]].
  repeat (split; [assumption|]).
  intros [Hsmall | [m Hm]].
  - assert (Hlo85 : 1 # 2 < double_0_85) by reflexivity.
    assert (Hlo65 : 1 # 2 < double_0_65) by reflexivity.
    split; split; intros H; lra.
  - split.
    + rewrite Hm. apply grid_cut_high.
    + rewrite Hm. apply grid_cut_medium.
Qed.

(** The score the response text [0.85] is read as is High Confidence. *)
Example band_at_the_high_boundary :
  getConfidenceLabel double_0_85 = "High Confidence"%string /\
  getConfidenceColor double_0_85 = success /\
  getConfidenceLabel (double_0_85 - (1 # 9007199254740992)) = "Medium Confidence"%string.
Proof. repeat split. Qed.

Example band_at_the_medium_boundary :
  getConfidenceLabel double_0_65 = "Medium Confidence"%string /\
  getConfidenceColor double_0_65 = warning /\
  getConfidenceLabel (double_0_65 - (1 # 9007199254740992)) = "Low Confidence"%string /\
  getConfidenceColor (64 # 100) = error.
Proof. repeat split. Qed.

Lemma drawer_null_or_some
    (fl : Q -> Q) (open : bool) (result : option ValidationResult.t) :
  exists d, ReasoningDrawer fl open result = Js.Normal d.
Proof. destruct result; eexists; reflexivity. Qed.

(** C10. Whatever the [open] flag, the drawer given no result renders
    nothing; the component never throws; and whenever it does render, there
    is a result, and the confidence and the reasoning it shows are read from
    that result. *)
Theorem drawer_guards_null_result
    (fl : Q -> Q) (open : bool) (result : option ValidationResult.t) :
  (result = None -> ReasoningDrawer fl open result = Js.Normal None) /\
  (forall e, ReasoningDrawer fl open result <> Js.Throw e) /\
  (forall d, ReasoningDrawer fl open result = Js.Normal (Some d) ->
     exists r,
       result = Some r /\
       progressValue d =
         Js.Math_round (fl (ConfidenceScore.overall (ValidationResult.confidence r)
                            * (100 # 1))) /\
       reasoningText d = ValidationResult.reasoning r).
Proof.
  destruct result as [r|]; cbn.
  - split; [discriminate|]. split; [discriminate|].
    intros d [= <-]. exists r. repeat split.
  - split; [reflexivity|]. split; discriminate.
Qed.

End Drawer.

(** ** The call to the back end and the page state *)

Section Validation.

Import Page.

Lemma or_else_nonempty (a : option string) (b : string) :
  b <> EmptyString -> Js.or_else a b <> EmptyString.
Proof.
  intros Hb. destruct a as [s|]; simpl; [|exact Hb].
  destruct (String.eqb_spec s EmptyString); simpl; congruence.
Qed.

(** With a timeout configured, axios settles every request by that time. *)
Lemma configured_timeout_bounds {A}
    (config : Api.AxiosRequestConfig) (t : N) (backend : Api.Backend A) (elapsed : N) :
  Api.timeout config = Some t -> (0 < t)%N -> (t <= elapsed)%N ->
  Api.axios_request config backend elapsed <> Api.Pending.
Proof.
  intros Ht Hpos Hle. unfold Api.axios_request, Api.effective_timeout. rewrite Ht.
  assert (Hz : (t =? 0)%N = false) by (apply N.eqb_neq; lia).
  assert (Hel : (t <=? elapsed)%N = true) by (apply N.leb_le; lia).
  rewrite Hz, Hel. simpl.
  destruct backend as [latency body | latency err |]; try discriminate.
  - destruct (latency <? t)%N eqn:Hl; [|discriminate].
    apply N.ltb_lt in Hl.
    assert (Hl' : (latency <=? elapsed)%N = true) by (apply N.leb_le; lia).
    rewrite Hl'. discriminate.
  - destruct (latency <? t)%N eqn:Hl; [|discriminate].
    apply N.ltb_lt in Hl.
    assert (Hl' : (latency <=? elapsed)%N = true) by (apply N.leb_le; lia).
    rewrite Hl'. discriminate.
Qed.

(** C8, counterexample. The client of the front end has no timeout, and a
    back end that stays silent leaves the call pending: a day after the
    click the page is still loading and shows no error. *)
Lemma silent_backend_leaves_call_pending :
  let promise :=
    Api.validateDesign None (fun _ => Api.Silent) Samples.request 86400000 in
  Api.timeout (Api.apiClient None) = None /\
  promise = Api.Pending /\
  isLoading (handleValidate promise initial) = true /\
  error (handleValidate promise initial) = None.
Proof. repeat split. Qed.

(** C8, amended. No call to the back end carries a timeout: the client
    has none configured and [validateDesign] takes none from its caller.  So
    nothing bounds a call: against a back end that never answers, the call
    is pending at every later time, and the page that sent it is still
    loading and shows no error, its stored result untouched. *)
Theorem backend_call_has_no_timeout
    (env : option string) (request : ValidationRequest.t) (elapsed : N)
    (panel : InputPanel.State) (s s' : State) :
  Api.timeout (Api.apiClient env) = None /\
  Api.effective_timeout (Api.apiClient env) = 0%N /\
  Api.validateDesign env (fun _ => Api.Silent) request elapsed = Api.Pending /\
  (submit env (fun _ => Api.Silent) panel elapsed s = Some (request, s') ->
   isLoading s' = true /\ error s' = None /\
   validationResult s' = validationResult s).
Proof.
  split; [reflexivity|]. split; [reflexivity|]. split; [reflexivity|].
  unfold submit.
  destruct (InputPanel.clickSubmit (isLoading s) panel) as [args|]; [|discriminate].
  intros [= _ <-]. repeat split.
Qed.

Lemma handleValidate_settled_not_loading
    (promise : Api.Promise ValidationResponse.t) (s : State) :
  settled promise = true -> isLoading (handleValidate promise s) = false.
Proof.
  destruct promise as [|response|err]; [discriminate| |]; intros _.
  - unfold handleValidate, handleValidate_then.
    destruct (ValidationResponse.success response), (ValidationResponse.data response);
      reflexivity.
  - reflexivity.
Qed.

(** C9. Once the call has settled, [isLoading] is false again, on success as
    on failure.  When the attempt failed (the call rejected, or the response
    has [success] false or no [data]) the stored result is the one from
    before, an error message that is not empty is set, and the drawer and
    the snackbar are as they were. *)
Theorem failed_validation_keeps_result
    (promise : Api.Promise ValidationResponse.t) (s : State) :
  settled promise = true ->
  isLoading (handleValidate promise s) = false /\
  (attempt_failed promise = true ->
   validationResult (handleValidate promise s) = validationResult s /\
   (exists msg, error (handleValidate promise s) = Some msg /\ msg <> EmptyString) /\
   drawerOpen (handleValidate promise s) = drawerOpen s /\
   snackbarOpen (handleValidate promise s) = snackbarOpen s).
Proof.
  intros Hsettled. split; [now apply handleValidate_settled_not_loading|].
  destruct promise as [|response|err]; [discriminate| |].
  - unfold attempt_failed, handleValidate, handleValidate_then.
    destruct (ValidationResponse.success response), (ValidationResponse.data response);
      cbn -[Js.or_else]; intros Hfailed; try discriminate;
      (split; [reflexivity|]); (split; [|split; reflexivity]);
      eexists; (split; [reflexivity|]); apply or_else_nonempty; discriminate.
  - intros _. cbn -[Js.or_else].
    split; [reflexivity|]. split; [|split; reflexivity].
    eexists. split; [reflexivity|].
    apply or_else_nonempty, or_else_nonempty. discriminate.
Qed.

Lemma failed_validation_keeps_result_witness :
  let promise := Api.Rejected Samples.networkError in
  let s := setDrawerOpen true
             (setValidationResult (Some (Samples.result (92 # 100))) initial) in
  settled promise = true /\
  isLoading (handleValidate promise s) = false /\
  (attempt_failed promise = true ->
   validationResult (handleValidate promise s) = validationResult s /\
   (exists msg, error (handleValidate promise s) = Some msg /\ msg <> EmptyString) /\
   drawerOpen (handleValidate promise s) = drawerOpen s /\
   snackbarOpen (handleValidate promise s) = snackbarOpen s).
Proof.
  split; [reflexivity|].
  apply (failed_validation_keeps_result (Api.Rejected Samples.networkError)
           (setDrawerOpen true
              (setValidationResult (Some (Samples.result (92 # 100))) initial))).
  reflexivity.
Defined.

(** A success stores the result and opens the drawer and the snackbar. *)
Lemma successful_validation_stores_result
    (response : ValidationResponse.t) (data : ValidationResult.t) (s : State) :
  ValidationResponse.success response = true ->
  ValidationResponse.data response = Some data ->
  handleValidate (Api.Fulfilled response) s =
    {| isLoading := false; savedDesigns := savedDesigns s;
       validationResult := Some data; error := None;
       drawerOpen := true; snackbarOpen := true |}.
Proof.
  intros Hs Hd. unfold handleValidate, handleValidate_then. rewrite Hs, Hd. reflexivity.
Qed.

Example network_error_message :
  error (handleValidate (Api.Rejected Samples.networkError) initial) = Some "Network Error".
Proof. reflexivity. Qed.

Example failed_response_default_message :
  error (handleValidate
           (Api.Fulfilled {| ValidationResponse.success := false;
                             ValidationResponse.message := EmptyString;
                             ValidationResponse.data := None;
                             ValidationResponse.input_type := "structured" |})
           initial) = Some "Validation failed".
Proof. reflexivity. Qed.

End Validation.

(** ** The results table *)

Section Table.

Import ResultsTable.







Lemma or_else_cases (a : option string) (b : string) :
  (Js.truthy a = false -> Js.or_else a b = b) /\
  (forall v, a = Some v -> v <> EmptyString -> Js.or_else a b = v).
Proof.
  split.
  - destruct a as [v|]; simpl; [|reflexivity]. intros H. now rewrite H.
  - intros v -> Hv. simpl. destruct (String.eqb_spec v EmptyString); [contradiction|reflexivity].
Qed.

(** X4. The provided and expected columns: a value that is missing or empty is
    shown as a dash, any other value as it is; the cell is never blank. *)
Theorem missing_value_shown_as_dash (r : Row) :
  (Js.truthy (provided (row r)) = false -> renderProvided r = em_dash) /\
  (forall v, provided (row r) = Some v -> v <> EmptyString -> renderProvided r = v) /\
  renderProvided r <> EmptyString /\
  (Js.truthy (expected (row r)) = false -> renderExpected r = em_dash) /\
  (forall v, expected (row r) = Some v -> v <> EmptyString -> renderExpected r = v) /\
  renderExpected r <> EmptyString.
Proof.
  unfold renderProvided, renderExpected.
  destruct (or_else_cases (provided (row r)) em_dash) as [Hp1 Hp2].
  destruct (or_else_cases (expected (row r)) em_dash) as [He1 He2].
  repeat split; try assumption; apply or_else_nonempty; discriminate.
Qed.

End Table.

(** ** The page *)

Section PageView.

Import Page.

Lemma count_status_total (vs : list FieldValidation) :
  (count_status PASS vs + count_status WARN vs + count_status FAIL vs)%nat =
  List.length vs.
Proof.
  unfold count_status. induction vs as [|v vs IH]; simpl; [reflexivity|].
  destruct (status v); simpl; lia.
Qed.

(** X5. The three counts of the summary card add up to the number of verdicts
    of the stored result: every verdict is counted once. *)
Theorem summary_counts_add_up
    (fl : Q -> Q) (s : State) (result : ValidationResult.t) :
  validationResult s = Some result ->
  exists card,
    summaryCard fl s = Some card /\
    (passCount card + warnCount card + failCount card)%nat =
    List.length (ValidationResult.validation result).
Proof.
  intros Hs. unfold summaryCard, validations. rewrite Hs.
  eexists. split; [reflexivity|]. cbn. apply count_status_total.
Qed.

Lemma summary_counts_add_up_witness :
  let s := setValidationResult (Some (Samples.result (92 # 100))) initial in
  validationResult s = Some (Samples.result (92 # 100)) /\
  exists card,
    summaryCard Samples.exact s = Some card /\
    (passCount card + warnCount card + failCount card)%nat =
    List.length (ValidationResult.validation (Samples.result (92 # 100))).
Proof.
  split; [reflexivity|].
  apply (summary_counts_add_up Samples.exact
           (setValidationResult (Some (Samples.result (92 # 100))) initial)
           (Samples.result (92 # 100))).
  reflexivity.
Defined.



(** A state with a result renders the button enabled, a drawer and a card. *)
Example page_with_result_shows_all_parts :
  match render Samples.exact
          (setValidationResult (Some (Samples.result (92 # 100))) initial) with
  | Js.Normal view =>
      reasoningButtonDisabled view = false /\
      option_map ReasoningDrawer.percentText (drawer view) = Some "92%" /\
      option_map summaryPercentText (summary view) = Some "92%"
  | Js.Throw _ => False
  end.
Proof. repeat split. Qed.

(** X7. After a settled attempt the error cell tells how that attempt went,
    whatever error was there before: it is empty exactly when the attempt
    did not fail, and then the result of the response is stored and the
    drawer and the snackbar are open. *)
Theorem error_reflects_last_attempt
    (promise : Api.Promise ValidationResponse.t) (s : State) :
  settled promise = true ->
  (error (handleValidate promise s) = None <-> attempt_failed promise = false) /\
  (attempt_failed promise = false ->
   exists response data,
     promise = Api.Fulfilled response /\
     ValidationResponse.data response = Some data /\
     validationResult (handleValidate promise s) = Some data /\
     drawerOpen (handleValidate promise s) = true /\
     snackbarOpen (handleValidate promise s) = true).
Proof.
  destruct promise as [|response|err]; [discriminate| |]; intros _.
  - unfold attempt_failed, handleValidate, handleValidate_then.
    destruct (ValidationResponse.success response),
      (ValidationResponse.data response) as [data|] eqn:Hd;
      cbn -[Js.or_else]; split; try (split; intros; discriminate);
      try (intros; discriminate).
    + split; reflexivity.
    + intros _. exists response, data. repeat split. exact Hd.
  - cbn -[Js.or_else]. split; [split; discriminate | discriminate].
Qed.

Lemma error_reflects_last_attempt_witness :
  let response :=
    {| ValidationResponse.success := true;
       ValidationResponse.message := "ok";
       ValidationResponse.data := Some (Samples.result (92 # 100));
       ValidationResponse.input_type := "structured" |} in
  let promise := Api.Fulfilled response in
  let s := setError (Some "Network Error") initial in
  settled promise = true /\
  (error (handleValidate promise s) = None <-> attempt_failed promise = false) /\
  (attempt_failed promise = false ->
   exists response data,
     promise = Api.Fulfilled response /\
     ValidationResponse.data response = Some data /\
     validationResult (handleValidate promise s) = Some data /\
     drawerOpen (handleValidate promise s) = true /\
     snackbarOpen (handleValidate promise s) = true).
Proof.
  split; [reflexivity|].
  apply (error_reflects_last_attempt
           (Api.Fulfilled
              {| ValidationResponse.success := true;
                 ValidationResponse.message := "ok";
                 ValidationResponse.data := Some (Samples.result (92 # 100));
                 ValidationResponse.input_type := "structured" |})
           (setError (Some "Network Error") initial)).
  reflexivity.
Defined.

(** X8. Loading the saved designs touches the list of designs only: whatever
    comes back, it sets no error and changes neither the result nor the
    loading flag, the drawer or the snackbar; the list itself changes only
    on a response with [success] true; and it commutes with a validation,
    so the order in which the two calls return does not matter. *)
Theorem loading_designs_is_silent
    (p : Api.Promise Designs.DesignListResponse.t)
    (q : Api.Promise ValidationResponse.t) (s : State) :
  error (Designs.loadSavedDesigns p s) = error s /\
  isLoading (Designs.loadSavedDesigns p s) = isLoading s /\
  validationResult (Designs.loadSavedDesigns p s) = validationResult s /\
  drawerOpen (Designs.loadSavedDesigns p s) = drawerOpen s /\
  snackbarOpen (Designs.loadSavedDesigns p s) = snackbarOpen s /\
  (savedDesigns (Designs.loadSavedDesigns p s) <> savedDesigns s ->
   exists response,
     p = Api.Fulfilled response /\
     Designs.DesignListResponse.success response = true /\
     savedDesigns (Designs.loadSavedDesigns p s) =
       Designs.DesignListResponse.data response) /\
  Designs.loadSavedDesigns p (handleValidate q s) =
    handleValidate q (Designs.loadSavedDesigns p s).
Proof.
  assert (Hshape :
    Designs.loadSavedDesigns p s = s \/
    exists response,
      p = Api.Fulfilled response /\
      Designs.DesignListResponse.success response = true /\
      Designs.loadSavedDesigns p s =
        Designs.setSavedDesigns (Designs.DesignListResponse.data response) s).
  { destruct p as [|response|err]; simpl; auto.
    destruct (Designs.DesignListResponse.success response) eqn:Hok; auto.
    right. exists response. auto. }
  repeat split;
    try (destruct Hshape as [-> | [response [_ [_ ->]]]]; reflexivity).
  - intros Hchanged. destruct Hshape as [Heq | [response [Hp [Hok Heq]]]].
    + rewrite Heq in Hchanged. contradiction.
    + exists response. rewrite Heq. auto.
  - destruct p as [|response|err]; simpl; try reflexivity.
    destruct (Designs.DesignListResponse.success response); [|reflexivity].
    destruct q as [|r|err]; try reflexivity.
    unfold handleValidate, handleValidate_then.
    destruct (ValidationResponse.success r), (ValidationResponse.data r); reflexivity.
Qed.

End PageView.

(** ** The page under events *)

Section Reactions.

Import App.

Lemma run_preserves (P : World -> Prop) :
  (forall w e, P w -> P (step w e)) ->
  forall events w, P w -> P (run events w).
Proof.
  intros Hstep events. unfold run.
  induction events as [|e events IH]; intros w Hw; simpl; [exact Hw|].
  apply IH, Hstep, Hw.
Qed.

(** [handleValidate] is [handleValidate_begin] followed, once the call has
    settled, by [settle]. *)
Lemma handleValidate_begin_settle (o : Outcome) (s : Page.State) :
  Page.handleValidate
    (match o with Resolved r => Api.Fulfilled r | Failed e => Api.Rejected e end) s =
  settle o (Page.handleValidate_begin s).
Proof. destruct o; reflexivity. Qed.

Lemma settle_result (o : Outcome) (s : Page.State) :
  (Page.validationResult (settle o s) = Page.validationResult s /\
   Page.drawerOpen (settle o s) = Page.drawerOpen s /\
   Page.snackbarOpen (settle o s) = Page.snackbarOpen s) \/
  has_result (settle o s).
Proof.
  destruct o as [response|err]; [|left; repeat split].
  unfold settle, Page.handleValidate_then.
  destruct (ValidationResponse.success response),
    (ValidationResponse.data response) as [data|];
    try solve [left; repeat split].
  right. exists data. reflexivity.
Qed.

Lemma loadSavedDesigns_frame
    (p : Api.Promise Designs.DesignListResponse.t) (s : Page.State) :
  Page.validationResult (Designs.loadSavedDesigns p s) = Page.validationResult s /\
  Page.drawerOpen (Designs.loadSavedDesigns p s) = Page.drawerOpen s /\
  Page.snackbarOpen (Designs.loadSavedDesigns p s) = Page.snackbarOpen s /\
  Page.isLoading (Designs.loadSavedDesigns p s) = Page.isLoading s.
Proof.
  destruct p as [|response|err]; simpl; try (repeat split; reflexivity).
  destruct (Designs.DesignListResponse.success response); repeat split.
Qed.

Lemma row_click_needs_result (s : Page.State) (r : ResultsTable.Row)
    (rs : list ResultsTable.Row) (n : Z) :
  ResultsTable.ResultsTable (Page.validations s) = ResultsTable.DataGrid (r :: rs) n ->
  has_result s.
Proof.
  unfold Page.validations, has_result.
  destruct (Page.validationResult s) as [res|]; [intros _; now exists res|].
  discriminate.
Qed.

Lemma step_open_implies_result (w : World) (e : Event) :
  open_implies_result w -> open_implies_result (step w e).
Proof.
  intros [Hd Hs]. unfold open_implies_result.
  destruct e as [panel | o | p | | | | | ]; cbn [step].
  - destruct (InputPanel.clickSubmit _ panel); [|now split]. cbn. now split.
  - destruct (inflight w); [now split|]. cbn [page].
    destruct (settle_result o (page w)) as [[Hr [Hdo Hso]] | Hres].
    + unfold has_result. rewrite Hr, Hdo, Hso. now split.
    + now split.
  - cbn [page].
    destruct (loadSavedDesigns_frame p (page w)) as [Hr [Hdo [Hso _]]].
    unfold has_result. rewrite Hr, Hdo, Hso. now split.
  - destruct (Page.validationResult (page w)) as [r|] eqn:Hr; [|now split].
    cbn. unfold has_result. cbn. rewrite Hr. split; intros _; now exists r.
  - destruct (ResultsTable.ResultsTable (Page.validations (page w)))
      as [text | [|r rs] n] eqn:Ht; try now split.
    apply row_click_needs_result in Ht.
    cbn. split; [intros _; exact Ht | exact Hs].
  - cbn. split; [discriminate | exact Hs].
  - cbn. split; [exact Hd | discriminate].
  - cbn. now split.
Qed.

(** X9. Whatever the user does and whatever comes back from the back end, the
    drawer and the snackbar are open only while a result is stored; so an
    open drawer always has something to render. *)
Theorem drawer_opens_only_with_result (fl : Q -> Q) (events : list Event) :
  let s := page (run events start) in
  (Page.drawerOpen s = true -> exists r, Page.validationResult s = Some r) /\
  (Page.snackbarOpen s = true -> exists r, Page.validationResult s = Some r) /\
  (Page.drawerOpen s = true ->
   exists d,
     ReasoningDrawer.ReasoningDrawer fl (Page.drawerOpen s) (Page.validationResult s) =
     Js.Normal (Some d)).
Proof.
  intros s.
  assert (Hinv : open_implies_result (run events start)).
  { apply run_preserves; [apply step_open_implies_result|].
    split; discriminate. }
  destruct Hinv as [Hd Hs]. fold s in Hd, Hs.
  split; [exact Hd|]. split; [exact Hs|].
  intros Hopen. destruct (Hd Hopen) as [r Hr]. rewrite Hr.
  eexists. reflexivity.
Qed.

Lemma step_keeps_result (w : World) (e : Event) :
  has_result (page w) -> has_result (page (step w e)).
Proof.
  intros [r Hr].
  destruct e as [panel | o | p | | | | | ]; cbn [step].
  - destruct (InputPanel.clickSubmit _ panel); cbn; now exists r.
  - destruct (inflight w); [now exists r|]. cbn [page].
    destruct (settle_result o (page w)) as [[Hsame _] | Hres]; [|exact Hres].
    exists r. now rewrite Hsame.
  - cbn [page]. destruct (loadSavedDesigns_frame p (page w)) as [Hsame _].
    exists r. now rewrite Hsame.
  - rewrite Hr. now exists r.
  - destruct (ResultsTable.ResultsTable _) as [text | [|row rs] n]; now exists r.
  - now exists r.
  - now exists r.
  - now exists r.
Qed.

(** X10. Once a result is stored, one stays stored: no event clears it, and a
    later failure leaves it in place. *)
Theorem result_is_never_cleared (w : World) (events : list Event)
    (r : ValidationResult.t) :
  Page.validationResult (page w) = Some r ->
  exists r', Page.validationResult (page (run events w)) = Some r'.
Proof.
  intros Hr.
  apply (run_preserves (fun w => has_result (page w))).
  - apply step_keeps_result.
  - now exists r.
Qed.

Lemma settle_not_loading (o : Outcome) (s : Page.State) :
  Page.isLoading (settle o s) = false.
Proof.
  destruct o as [response|err]; [|reflexivity].
  unfold settle, Page.handleValidate_then.
  destruct (ValidationResponse.success response), (ValidationResponse.data response);
    reflexivity.
Qed.

Lemma step_loading_matches_inflight (w : World) (e : Event) :
  loading_matches_inflight w -> loading_matches_inflight (step w e).
Proof.
  unfold loading_matches_inflight. intros Hw.
  destruct e as [panel | o | p | | | | | ]; cbn [step].
  - unfold InputPanel.clickSubmit, InputPanel.submitDisabled.
    destruct Hw as [[Hn Hl] | [Hn Hl]]; rewrite Hl; cbn [orb].
    + destruct (negb (InputPanel.isValid panel)); [left; now split|].
      destruct (InputPanel.handleSubmit panel); [|left; now split].
      right. cbn. now rewrite Hn.
    + right. now split.
  - destruct Hw as [[Hn Hl] | [Hn Hl]]; rewrite Hn.
    + left. now split.
    + left. cbn. split; [reflexivity | apply settle_not_loading].
  - cbn. destruct (loadSavedDesigns_frame p (page w)) as [_ [_ [_ Hsame]]].
    now rewrite Hsame.
  - destruct (Page.validationResult (page w)); exact Hw.
  - destruct (ResultsTable.ResultsTable _) as [text | [|row rs] n]; exact Hw.
  - exact Hw.
  - exact Hw.
  - exact Hw.
Qed.

(** X11. At most one validation call is in flight at any time, and the loading
    flag is set exactly while one is: a click while loading sends nothing,
    and every settled call clears the flag. *)
Theorem one_call_in_flight (events : list Event) :
  let w := run events start in
  (inflight w <= 1)%nat /\
  (Page.isLoading (page w) = true <-> inflight w = 1%nat).
Proof.
  intros w.
  assert (Hinv : loading_matches_inflight w).
  { apply run_preserves; [apply step_loading_matches_inflight|].
    left. now split. }
  destruct Hinv as [[Hn Hl] | [Hn Hl]]; rewrite Hn, Hl; split; try lia;
    split; intros; try discriminate; reflexivity.
Qed.

Lemma result_is_never_cleared_witness :
  let w := {| page := Page.setValidationResult (Some (Samples.result (92 # 100)))
                        Page.initial;
              inflight := 1 |} in
  let events := [CallSettles (Failed Samples.networkError); CloseAlert; CloseDrawer] in
  Page.validationResult (page w) = Some (Samples.result (92 # 100)) /\
  exists r', Page.validationResult (page (run events w)) = Some r'.
Proof.
  split; [reflexivity|].
  apply (result_is_never_cleared
           {| page := Page.setValidationResult (Some (Samples.result (92 # 100)))
                        Page.initial;
              inflight := 1 |}
           [CallSettles (Failed Samples.networkError); CloseAlert; CloseDrawer]
           (Samples.result (92 # 100))).
  reflexivity.
Defined.

End Reactions.

(** ** The input panel, further *)

Section Panel.

Import InputPanel.

Lemma isValid_handleSubmit (st : State) :
  isValid st = true -> exists args, handleSubmit st = Some args.
Proof.
  unfold isValid, handleSubmit.
  destruct (tabValue st =? 0); [intros _; eexists; reflexivity|].
  destruct (tabValue st =? 1); [intros _; eexists; reflexivity|].
  destruct (tabValue st =? 2); [|discriminate].
  destruct (selectedDesignId st); [intros _; eexists; reflexivity | discriminate].
Qed.

(** X12. A click on the submit button calls [onValidate] exactly when no
    validation is loading and the input of the selected tab is valid; it
    then calls it once, with the data of that tab. *)
Theorem click_sends_iff_idle_and_valid (isLoading : bool) (st : State) :
  (exists args, clickSubmit isLoading st = Some args) <->
  isLoading = false /\ isValid st = true.
Proof.
  unfold clickSubmit, submitDisabled. split.
  - intros [args H]. destruct isLoading; [discriminate|].
    destruct (isValid st); [now split | discriminate].
  - intros [-> Hv]. rewrite Hv. cbn. now apply isValid_handleSubmit.
Qed.

(** X13. On the free-text tab the input is valid exactly when the text holds a
    code unit that is not white space. *)
Theorem free_text_valid_iff_not_blank (st : State) :
  tabValue st = 1 ->
  (isValid st = true <->
   exists c, In c (freeText st) /\ Js.is_whitespace c = false).
Proof.
  intros Htab. unfold isValid. rewrite Htab. cbn [Z.eqb Pos.eqb].
  destruct (Js.trim (freeText st)) as [|c rest] eqn:Htrim; cbn.
  - apply trim_nil_iff in Htrim. rewrite forallb_forall in Htrim. split.
    + discriminate.
    + intros [c [Hin Hc]]. rewrite (Htrim c Hin) in Hc. discriminate.
  - split; [intros _|reflexivity].
    assert (Hnot : forallb Js.is_whitespace (freeText st) <> true).
    { intros Hall. apply trim_nil_iff in Hall. congruence. }
    apply Bool.not_true_is_false in Hnot.
    clear Htrim. induction (freeText st) as [|d s IH]; [discriminate|].
    simpl in Hnot. destruct (Js.is_whitespace d) eqn:Hd.
    + destruct (IH Hnot) as [x [Hin Hx]]. exists x. split; [now right | exact Hx].
    + exists d. split; [now left | exact Hd].
Qed.

Lemma free_text_valid_iff_not_blank_witness :
  let st := setFreeText [32; 49; 48; 32]%N (handleTabChange 1 initial) in
  tabValue st = 1 /\
  (isValid st = true <->
   exists c, In c (freeText st) /\ Js.is_whitespace c = false).
Proof.
  split; [reflexivity|].
  apply (free_text_valid_iff_not_blank
           (setFreeText [32; 49; 48; 32]%N (handleTabChange 1 initial))).
  reflexivity.
Defined.

(** X14. At most one of the three forms is on screen, one exactly on the tabs
    0, 1 and 2; a panel is hidden exactly when it holds nothing; and
    whenever [handleSubmit] calls [onValidate], the data it passes is that
    of the form on screen. *)
Theorem form_on_screen_is_submitted (st : State) :
  (List.length (TabPanel.shown (tabValue st)) <= 1)%nat /\
  (TabPanel.shown (tabValue st) <> [] <->
   tabValue st = 0 \/ tabValue st = 1 \/ tabValue st = 2) /\
  Forall (fun v => TabPanel.hidden v = true <-> TabPanel.children v = None)
    (TabPanel.panels (tabValue st)) /\
  (forall args,
     handleSubmit st = Some args ->
     exists f, TabPanel.shown (tabValue st) = [f] /\ TabPanel.form_of args = Some f).
Proof.
  unfold TabPanel.shown, TabPanel.panels, TabPanel.TabPanel. cbn [flat_map TabPanel.children].
  split; [|split; [|split]].
  - destruct (Z.eqb_spec (tabValue st) 0) as [-> | H0]; [cbn; lia|].
    destruct (Z.eqb_spec (tabValue st) 1) as [-> | H1]; [cbn; lia|].
    destruct (tabValue st =? 2); cbn; lia.
  - destruct (Z.eqb_spec (tabValue st) 0) as [-> | H0];
      [cbn; split; [auto | discriminate]|].
    destruct (Z.eqb_spec (tabValue st) 1) as [-> | H1];
      [cbn; split; [auto | discriminate]|].
    destruct (Z.eqb_spec (tabValue st) 2) as [-> | H2];
      [cbn; split; [auto | discriminate]|].
    cbn. split; [congruence | intros [H | [H | H]]; contradiction].
  - assert (Hpanel : forall (f : TabPanel.Form) (index : Z),
              TabPanel.hidden (TabPanel.TabPanel f (tabValue st) index) = true <->
              TabPanel.children (TabPanel.TabPanel f (tabValue st) index) = None).
    { intros f index. unfold TabPanel.TabPanel. cbn.
      destruct (tabValue st =? index); cbn; split; congruence. }
    constructor; [apply Hpanel|].
    constructor; [apply Hpanel|].
    constructor; [apply Hpanel|].
    constructor.
  - intros args Hargs. apply handleSubmit_args in Hargs.
    destruct Hargs as [[Ht ->] | [[Ht ->] | [Ht [id [_ ->]]]]]; rewrite Ht; cbn;
      eexists; split; reflexivity.
Qed.

End Panel.

(** ** The status chip, the bands and the client, further *)

Section Presentation.

(** X15. Two different statuses never look alike: their chips differ in label,
    in colour and in icon; and the icon is 16 pixels on a small chip and 20
    on a medium one. *)
Theorem statuses_look_different
    (s1 s2 : ValidationStatus) (size : StatusChip.Size) (c1 c2 : StatusChip.Chip) :
  StatusChip.StatusChip (status_value s1) size = Js.Normal c1 ->
  StatusChip.StatusChip (status_value s2) size = Js.Normal c2 ->
  s1 <> s2 ->
  StatusChip.chip_label c1 <> StatusChip.chip_label c2 /\
  StatusChip.chip_color c1 <> StatusChip.chip_color c2 /\
  StatusChip.chip_icon c1 <> StatusChip.chip_icon c2 /\
  StatusChip.chip_iconFontSize c1 =
    match size with StatusChip.small => 16 | StatusChip.medium => 20 end.
Proof.
  intros H1 H2 Hne.
  destruct s1, s2; try contradiction;
    cbn in H1, H2; injection H1 as <-; injection H2 as <-;
    cbn; repeat split; discriminate.
Qed.

Lemma statuses_look_different_witness :
  let c1 := {| StatusChip.chip_icon := StatusChip.CheckCircleIcon;
               StatusChip.chip_label := "PASS";
               StatusChip.chip_color := StatusChip.success;
               StatusChip.chip_size := StatusChip.small;
               StatusChip.chip_iconFontSize := 16 |} in
  let c2 := {| StatusChip.chip_icon := StatusChip.ErrorIcon;
               StatusChip.chip_label := "FAIL";
               StatusChip.chip_color := StatusChip.error;
               StatusChip.chip_size := StatusChip.small;
               StatusChip.chip_iconFontSize := 16 |} in
  StatusChip.StatusChip (status_value PASS) StatusChip.small = Js.Normal c1 /\
  StatusChip.StatusChip (status_value FAIL) StatusChip.small = Js.Normal c2 /\
  PASS <> FAIL /\
  StatusChip.chip_label c1 <> StatusChip.chip_label c2 /\
  StatusChip.chip_color c1 <> StatusChip.chip_color c2 /\
  StatusChip.chip_icon c1 <> StatusChip.chip_icon c2 /\
  StatusChip.chip_iconFontSize c1 = 16.
Proof.
  split; [reflexivity|]. split; [reflexivity|]. split; [discriminate|].
  apply (statuses_look_different PASS FAIL StatusChip.small
           {| StatusChip.chip_icon := StatusChip.CheckCircleIcon;
              StatusChip.chip_label := "PASS";
              StatusChip.chip_color := StatusChip.success;
              StatusChip.chip_size := StatusChip.small;
              StatusChip.chip_iconFontSize := 16 |}
           {| StatusChip.chip_icon := StatusChip.ErrorIcon;
              StatusChip.chip_label := "FAIL";
              StatusChip.chip_color := StatusChip.error;
              StatusChip.chip_size := StatusChip.small;
              StatusChip.chip_iconFontSize := 16 |});
    [reflexivity | reflexivity | discriminate].
Defined.

(** X16. The base URL of the client is never empty: it is the environment's URL
    when that is set and not empty, and [http://localhost:8000] when it is
    missing or empty; the client is created with that URL. *)
Theorem base_url_falls_back (env : option string) :
  Api.API_URL env <> EmptyString /\
  (Js.truthy env = false -> Api.API_URL env = "http://localhost:8000") /\
  (forall url, env = Some url -> url <> EmptyString -> Api.API_URL env = url) /\
  Api.baseURL (Api.apiClient env) = Some (Api.API_URL env).
Proof.
  unfold Api.API_URL.
  destruct (or_else_cases env "http://localhost:8000") as [H1 H2].
  split; [apply or_else_nonempty; discriminate|].
  split; [exact H1|]. split; [exact H2 | reflexivity].
Qed.

End Presentation.

(** ** The drawer, further *)

Section Bands.

Import ReasoningDrawer.

Local Open Scope Q_scope.

(** The rounding of [confidence * 100] to a double: monotone, and exact on
    the doubles 65, 65.25, 84.5 and 85. *)
Variable fl : Q -> Q.
Hypothesis fl_monotone : forall x y, x <= y -> fl x <= fl y.
Hypothesis fl_65 : fl (65 # 1) == 65 # 1.
Hypothesis fl_85 : fl (85 # 1) == 85 # 1.
Hypothesis fl_65_25 : fl (261 # 4) == 261 # 4.
Hypothesis fl_84_5 : fl (169 # 2) == 169 # 2.

Lemma percent_monotone (c1 c2 : Q) :
  c1 <= c2 ->
  (Js.Math_round (fl (c1 * (100 # 1))) <= Js.Math_round (fl (c2 * (100 # 1))))%Z.
Proof.
  intros H. apply Math_round_monotone, fl_monotone. lra.
Qed.

Lemma percent_at_least (c q : Q) :
  fl q == q -> q <= c * (100 # 1) ->
  (Js.Math_round q <= Js.Math_round (fl (c * (100 # 1))))%Z.
Proof.
  intros Hq Hc. apply Math_round_monotone.
  apply Qle_trans with (fl q); [rewrite Hq; apply Qle_refl|].
  now apply fl_monotone.
Qed.

Lemma percent_at_most (c q : Q) :
  fl q == q -> c * (100 # 1) <= q ->
  (Js.Math_round (fl (c * (100 # 1))) <= Js.Math_round q)%Z.
Proof.
  intros Hq Hc. apply Math_round_monotone.
  apply Qle_trans with (fl q); [now apply fl_monotone|].
  rewrite Hq. apply Qle_refl.
Qed.

(** X17. The band and the percentage of a score agree: a score shown as High
    Confidence is shown as 85% or more, one shown as Medium Confidence as
    something from 65% to 85%, and one shown as Low Confidence as 65% or
    less (a score just below 0.65 is Low Confidence at 65%). *)
Theorem band_agrees_with_percent (c : Q) :
  let percent := Js.Math_round (fl (c * (100 # 1))) in
  (getConfidenceColor c = success -> (85 <= percent)%Z) /\
  (getConfidenceColor c = warning -> (65 <= percent <= 85)%Z) /\
  (getConfidenceColor c = error -> (percent <= 65)%Z).
Proof.
  intros percent. subst percent.
  assert (H85 : double_0_85 * (100 # 1) < 85 # 1) by reflexivity.
  assert (H845 : 169 # 2 <= double_0_85 * (100 # 1)) by discriminate.
  assert (H65 : 65 # 1 <= double_0_65 * (100 # 1)) by discriminate.
  assert (H6525 : double_0_65 * (100 # 1) <= 261 # 4) by discriminate.
  unfold getConfidenceColor.
  destruct (Qle_bool double_0_85 c) eqn:Hhigh;
    [apply Qle_bool_iff in Hhigh | apply Qle_bool_false_iff in Hhigh];
    (destruct (Qle_bool double_0_65 c) eqn:Hmed;
       [apply Qle_bool_iff in Hmed | apply Qle_bool_false_iff in Hmed]);
    repeat split; intros; try discriminate.
  - apply (Z.le_trans _ (Js.Math_round (169 # 2))); [apply Z.le_refl|].
    apply percent_at_least; [exact fl_84_5 | lra].
  - apply (Z.le_trans _ (Js.Math_round (169 # 2))); [apply Z.le_refl|].
    apply percent_at_least; [exact fl_84_5 | lra].
  - apply (Z.le_trans _ (Js.Math_round (65 # 1))); [apply Z.le_refl|].
    apply percent_at_least; [exact fl_65 | lra].
  - apply (Z.le_trans _ (Js.Math_round (85 # 1))); [|apply Z.le_refl].
    apply percent_at_most; [exact fl_85 | lra].
  - apply (Z.le_trans _ (Js.Math_round (261 # 4))); [|apply Z.le_refl].
    apply percent_at_most; [exact fl_65_25 | lra].
Qed.

(** X18. A higher score never gets a lower percentage nor a lower band. *)
Theorem higher_score_never_shown_lower (c1 c2 : Q) :
  c1 <= c2 ->
  (Js.Math_round (fl (c1 * (100 # 1))) <= Js.Math_round (fl (c2 * (100 # 1))))%Z /\
  (band_rank (getConfidenceColor c1) <= band_rank (getConfidenceColor c2))%nat.
Proof.
  intros H. split; [now apply percent_monotone|].
  assert (Hcuts : double_0_65 < double_0_85) by reflexivity.
  unfold getConfidenceColor.
  destruct (Qle_bool double_0_85 c1) eqn:H1;
    [apply Qle_bool_iff in H1 | apply Qle_bool_false_iff in H1];
    (destruct (Qle_bool double_0_65 c1) eqn:H2;
       [apply Qle_bool_iff in H2 | apply Qle_bool_false_iff in H2]);
    (destruct (Qle_bool double_0_85 c2) eqn:H3;
       [apply Qle_bool_iff in H3 | apply Qle_bool_false_iff in H3]);
    (destruct (Qle_bool double_0_65 c2) eqn:H4;
       [apply Qle_bool_iff in H4 | apply Qle_bool_false_iff in H4]);
    cbn; try lia; exfalso; lra.
Qed.

End Bands.

Section DrawerParts.

Import ReasoningDrawer.

(** X19. In a rendered drawer the chip and the progress bar have the same
    colour, the label names the band of that colour, an empty confidence
    note is not shown, and the drawer is rendered open or closed as the
    flag says. *)
Theorem drawer_parts_agree
    (fl : Q -> Q) (open : bool) (result : option ValidationResult.t) (d : Drawer) :
  ReasoningDrawer fl open result = Js.Normal (Some d) ->
  chipColor d = progressColor d /\
  (chipLabel d = "High Confidence" <-> chipColor d = success) /\
  (chipLabel d = "Medium Confidence" <-> chipColor d = warning) /\
  (chipLabel d = "Low Confidence" <-> chipColor d = error) /\
  confidenceReasoning d <> Some EmptyString /\
  drawer_open d = open.
Proof.
  destruct result as [r|]; cbn -[Js.truthy]; [|discriminate].
  intros [= <-]. cbn -[Js.truthy].
  unfold getConfidenceLabel, getConfidenceColor.
  split; [reflexivity|].
  destruct (Qle_bool double_0_85 (ConfidenceScore.overall (ValidationResult.confidence r))),
    (Qle_bool double_0_65 (ConfidenceScore.overall (ValidationResult.confidence r)));
    (repeat split; try discriminate; try reflexivity);
    destruct (ConfidenceScore.reasoning (ValidationResult.confidence r)) as [note|];
    simpl; try discriminate;
    destruct (String.eqb_spec note EmptyString); simpl; congruence.
Qed.

End DrawerParts.

Lemma band_agrees_with_percent_witness :
  let fl := Samples.exact in
  let c := 649 # 1000 in
  let percent := Js.Math_round (fl (c * (100 # 1))%Q) in
  (forall x y, x <= y -> fl x <= fl y)%Q /\
  (fl (65 # 1) == 65 # 1)%Q /\
  (fl (85 # 1) == 85 # 1)%Q /\
  (fl (261 # 4) == 261 # 4)%Q /\
  (fl (169 # 2) == 169 # 2)%Q /\
  (ReasoningDrawer.getConfidenceColor c = ReasoningDrawer.success -> 85 <= percent) /\
  (ReasoningDrawer.getConfidenceColor c = ReasoningDrawer.warning -> 65 <= percent <= 85) /\
  (ReasoningDrawer.getConfidenceColor c = ReasoningDrawer.error -> percent <= 65).
Proof.
  split; [exact (fun x y H => H)|].
  split; [reflexivity|]. split; [reflexivity|].
  split; [reflexivity|]. split; [reflexivity|].
  apply (band_agrees_with_percent Samples.exact (fun x y H => H)
           (Qeq_refl (65 # 1)) (Qeq_refl (85 # 1))
           (Qeq_refl (261 # 4)) (Qeq_refl (169 # 2)) (649 # 1000)).
Defined.

Lemma higher_score_never_shown_lower_witness :
  let fl := Samples.exact in
  (forall x y, x <= y -> fl x <= fl y)%Q /\
  (64 # 100 <= 92 # 100)%Q /\
  Js.Math_round (fl ((64 # 100) * (100 # 1))%Q) <=
    Js.Math_round (fl ((92 # 100) * (100 # 1))%Q) /\
  (band_rank (ReasoningDrawer.getConfidenceColor (64 # 100)) <=
   band_rank (ReasoningDrawer.getConfidenceColor (92 # 100)))%nat.
Proof.
  split; [exact (fun x y H => H)|]. split; [discriminate|].
  apply (higher_score_never_shown_lower Samples.exact (fun x y H => H)
           (64 # 100) (92 # 100)).
  discriminate.
Defined.

Lemma drawer_parts_agree_witness :
  let result := Samples.result (92 # 100) in
  let d :=
    {| ReasoningDrawer.drawer_open := true;
       ReasoningDrawer.percentText := "92%";
       ReasoningDrawer.chipLabel := "High Confidence";
       ReasoningDrawer.chipColor := ReasoningDrawer.success;
       ReasoningDrawer.progressValue := 92;
       ReasoningDrawer.progressColor := ReasoningDrawer.success;
       ReasoningDrawer.confidenceReasoning := None;
       ReasoningDrawer.reasoningText := "reasoning";
       ReasoningDrawer.extractedFields := None |} in
  ReasoningDrawer.ReasoningDrawer Samples.exact true (Some result) = Js.Normal (Some d) /\
  ReasoningDrawer.chipColor d = ReasoningDrawer.progressColor d /\
  (ReasoningDrawer.chipLabel d = "High Confidence" <->
   ReasoningDrawer.chipColor d = ReasoningDrawer.success) /\
  (ReasoningDrawer.chipLabel d = "Medium Confidence" <->
   ReasoningDrawer.chipColor d = ReasoningDrawer.warning) /\
  (ReasoningDrawer.chipLabel d = "Low Confidence" <->
   ReasoningDrawer.chipColor d = ReasoningDrawer.error) /\
  ReasoningDrawer.confidenceReasoning d <> Some EmptyString /\
  ReasoningDrawer.drawer_open d = true.
Proof.
  split; [reflexivity|].
  apply (drawer_parts_agree Samples.exact true (Some (Samples.result (92 # 100)))).
  reflexivity.
Defined.

Example low_band_at_65_percent :
  ReasoningDrawer.getConfidenceLabel (649 # 1000) = "Low Confidence" /\
  Js.Math_round (Samples.exact ((649 # 1000) * (100 # 1))%Q) = 65.
Proof. split; reflexivity. Qed.
